(** * VideoRecorder: a shallow embedding of the recorder widget

    The development follows [src/components/VideoRecorder.tsx].  The React
    component keeps its data in one state object ([RecordingState]), two
    further state cells ([videoUrl], [isVideoLoaded]) and six refs.  The
    browser objects the component talks to (timers, media recorders, the
    audio graph, the save dialog) are kept in a separate [Browser] record,
    and what the browser answers during one start attempt is a [Platform]
    record, so that every statement below quantifies over all answers the
    browser can give.

    Every handler is a function on [World].  One turn of the event loop
    is a [handle] step followed by React's commit of the re-rendered
    tree: state updates made by a handler are rendered once the handler
    has returned, and refs to conditionally rendered elements follow the
    tree.  [startRecording] is an async function with one [await]; its
    two halves are separate turns, and [startRecording] itself is the
    attempt with nothing in between. *)

From Stdlib Require Import String Ascii List ZArith Lia Bool Arith.
From Stdlib Require Import DecimalString DecimalZ DecimalPos.
Import ListNotations.

Local Open Scope string_scope.
Local Open Scope list_scope.

(** ** JavaScript values that cross the model *)

(** What a [throw] carries: an [Error] object with its [message], or any
    other value ([error instanceof Error] is false for those). *)
Inductive Thrown : Type :=
| ErrorObject (message : string)
| NonError.

Inductive result (A : Type) : Type :=
| Ok (a : A)
| Throw (e : Thrown).
Arguments Ok {A} a.
Arguments Throw {A} e.

(** [s.includes(sub)]: [sub] occurs somewhere in [s] (case-sensitive). *)
Fixpoint includes (s sub : string) : bool :=
  if String.prefix sub s then true
  else match s with
       | EmptyString => false
       | String _ rest => includes rest sub
       end.

(** Template-literal conversion of an integral number such as [Date.now()]. *)
Definition numberToString (n : Z) : string :=
  NilZero.string_of_int (Z.to_int n).

(** A [Blob]: its bytes and its [type] tag.  Fragments delivered by the
    recorder are blobs too. *)
Record Blob : Type := mkBlob {
  blobData : list Byte.byte;
  blobType : string
}.

Definition size (b : Blob) : nat := length (blobData b).

(** [new Blob(parts, { type })]: the parts' bytes one after the other. *)
Definition newBlob (parts : list Blob) (type : string) : Blob :=
  {| blobData := concat (map blobData parts); blobType := type |}.

Inductive TrackKind : Type := VideoTrack | AudioTrack.

Record Track : Type := mkTrack {
  kind : TrackKind;
  trackId : nat
}.

(** A [MediaStream] is the list of its tracks. *)
Definition MediaStream : Type := list Track.

Definition isVideo (t : Track) : bool :=
  match kind t with VideoTrack => true | AudioTrack => false end.
Definition isAudio (t : Track) : bool :=
  match kind t with AudioTrack => true | VideoTrack => false end.

Definition getVideoTracks (s : MediaStream) : list Track := filter isVideo s.
Definition getAudioTracks (s : MediaStream) : list Track := filter isAudio s.

(** A constructed [MediaRecorder]: the stream it records and the
    [mimeType] attribute it reports. *)
Record MediaRecorder : Type := mkMediaRecorder {
  recorderId : nat;
  stream : MediaStream;
  mimeType : string
}.

Record HTMLVideoElement : Type := mkVideo {
  videoWidth : nat;
  videoHeight : nat
}.

Record HTMLCanvasElement : Type := mkCanvas {
  width : nat;
  height : nat
}.

(** The playback element of the "Recorded Video" panel.  [src] is the
    blob its object URL resolves to. *)
Record PlaybackElement : Type := mkPlayback {
  src : option Blob
}.

(** The anchor built by the download action and the file the browser
    saves when it is clicked. *)
Record Anchor : Type := mkAnchor {
  href : Blob;
  download : string
}.

(** ** Component state *)

Record RecordingState : Type := mkRecordingState {
  isRecording : bool;
  isPaused : bool;
  recordedBlob : option Blob;
  error : option string
}.

Record Widget : Type := mkWidget {
  recordingState : RecordingState;
  videoUrl : string;
  isVideoLoaded : bool;
  videoRef : option HTMLVideoElement;
  recordedVideoRef : option PlaybackElement;
  canvasRef : option HTMLCanvasElement;
  recorderRef : option MediaRecorder;
  drawIntervalRef : option nat;
  recordedChunksRef : list Blob
}.

(** Browser-side state: running interval timers, recorders whose state
    is ['recording'], recorders whose [stop()] was called and whose
    [stop] event is still queued, start attempts suspended at
    [await audioCtx.resume()] (each keeps its local [videoStream]), and
    the files handed to the save dialog. *)
Record Browser : Type := mkBrowser {
  timers : list nat;
  nextTimer : nat;
  nextRecorder : nat;
  recording : list nat;
  stopping : list nat;
  awaiting : list MediaStream;
  saved : list Anchor
}.

Record World : Type := mkWorld {
  widget : Widget;
  browser : Browser
}.

(** *** Field updates *)

Definition set_isRecording (b : bool) (s : RecordingState) : RecordingState :=
  {| isRecording := b; isPaused := isPaused s;
     recordedBlob := recordedBlob s; error := error s |}.
Definition set_recordedBlob (b : option Blob) (s : RecordingState) : RecordingState :=
  {| isRecording := isRecording s; isPaused := isPaused s;
     recordedBlob := b; error := error s |}.
Definition set_error (e : option string) (s : RecordingState) : RecordingState :=
  {| isRecording := isRecording s; isPaused := isPaused s;
     recordedBlob := recordedBlob s; error := e |}.

Definition set_recordingState (s : RecordingState) (c : Widget) : Widget :=
  {| recordingState := s; videoUrl := videoUrl c; isVideoLoaded := isVideoLoaded c;
     videoRef := videoRef c; recordedVideoRef := recordedVideoRef c;
     canvasRef := canvasRef c; recorderRef := recorderRef c;
     drawIntervalRef := drawIntervalRef c; recordedChunksRef := recordedChunksRef c |}.
Definition set_videoUrl (u : string) (c : Widget) : Widget :=
  {| recordingState := recordingState c; videoUrl := u; isVideoLoaded := isVideoLoaded c;
     videoRef := videoRef c; recordedVideoRef := recordedVideoRef c;
     canvasRef := canvasRef c; recorderRef := recorderRef c;
     drawIntervalRef := drawIntervalRef c; recordedChunksRef := recordedChunksRef c |}.
Definition set_isVideoLoaded (b : bool) (c : Widget) : Widget :=
  {| recordingState := recordingState c; videoUrl := videoUrl c; isVideoLoaded := b;
     videoRef := videoRef c; recordedVideoRef := recordedVideoRef c;
     canvasRef := canvasRef c; recorderRef := recorderRef c;
     drawIntervalRef := drawIntervalRef c; recordedChunksRef := recordedChunksRef c |}.
Definition set_videoRef (v : option HTMLVideoElement) (c : Widget) : Widget :=
  {| recordingState := recordingState c; videoUrl := videoUrl c;
     isVideoLoaded := isVideoLoaded c;
     videoRef := v; recordedVideoRef := recordedVideoRef c;
     canvasRef := canvasRef c; recorderRef := recorderRef c;
     drawIntervalRef := drawIntervalRef c; recordedChunksRef := recordedChunksRef c |}.
Definition set_recordedVideoRef (v : option PlaybackElement) (c : Widget) : Widget :=
  {| recordingState := recordingState c; videoUrl := videoUrl c;
     isVideoLoaded := isVideoLoaded c;
     videoRef := videoRef c; recordedVideoRef := v;
     canvasRef := canvasRef c; recorderRef := recorderRef c;
     drawIntervalRef := drawIntervalRef c; recordedChunksRef := recordedChunksRef c |}.
Definition set_canvasRef (v : option HTMLCanvasElement) (c : Widget) : Widget :=
  {| recordingState := recordingState c; videoUrl := videoUrl c;
     isVideoLoaded := isVideoLoaded c;
     videoRef := videoRef c; recordedVideoRef := recordedVideoRef c;
     canvasRef := v; recorderRef := recorderRef c;
     drawIntervalRef := drawIntervalRef c; recordedChunksRef := recordedChunksRef c |}.
Definition set_recorderRef (r : option MediaRecorder) (c : Widget) : Widget :=
  {| recordingState := recordingState c; videoUrl := videoUrl c;
     isVideoLoaded := isVideoLoaded c;
     videoRef := videoRef c; recordedVideoRef := recordedVideoRef c;
     canvasRef := canvasRef c; recorderRef := r;
     drawIntervalRef := drawIntervalRef c; recordedChunksRef := recordedChunksRef c |}.
Definition set_drawIntervalRef (t : option nat) (c : Widget) : Widget :=
  {| recordingState := recordingState c; videoUrl := videoUrl c;
     isVideoLoaded := isVideoLoaded c;
     videoRef := videoRef c; recordedVideoRef := recordedVideoRef c;
     canvasRef := canvasRef c; recorderRef := recorderRef c;
     drawIntervalRef := t; recordedChunksRef := recordedChunksRef c |}.
Definition set_recordedChunksRef (l : list Blob) (c : Widget) : Widget :=
  {| recordingState := recordingState c; videoUrl := videoUrl c;
     isVideoLoaded := isVideoLoaded c;
     videoRef := videoRef c; recordedVideoRef := recordedVideoRef c;
     canvasRef := canvasRef c; recorderRef := recorderRef c;
     drawIntervalRef := drawIntervalRef c; recordedChunksRef := l |}.

Definition set_timers (l : list nat) (b : Browser) : Browser :=
  {| timers := l; nextTimer := nextTimer b; nextRecorder := nextRecorder b;
     recording := recording b; stopping := stopping b;
     awaiting := awaiting b; saved := saved b |}.
Definition set_nextTimer (n : nat) (b : Browser) : Browser :=
  {| timers := timers b; nextTimer := n; nextRecorder := nextRecorder b;
     recording := recording b; stopping := stopping b;
     awaiting := awaiting b; saved := saved b |}.
Definition set_nextRecorder (n : nat) (b : Browser) : Browser :=
  {| timers := timers b; nextTimer := nextTimer b; nextRecorder := n;
     recording := recording b; stopping := stopping b;
     awaiting := awaiting b; saved := saved b |}.
Definition set_recording (l : list nat) (b : Browser) : Browser :=
  {| timers := timers b; nextTimer := nextTimer b; nextRecorder := nextRecorder b;
     recording := l; stopping := stopping b;
     awaiting := awaiting b; saved := saved b |}.
Definition set_stopping (l : list nat) (b : Browser) : Browser :=
  {| timers := timers b; nextTimer := nextTimer b; nextRecorder := nextRecorder b;
     recording := recording b; stopping := l;
     awaiting := awaiting b; saved := saved b |}.
Definition set_awaiting (l : list MediaStream) (b : Browser) : Browser :=
  {| timers := timers b; nextTimer := nextTimer b; nextRecorder := nextRecorder b;
     recording := recording b; stopping := stopping b;
     awaiting := l; saved := saved b |}.
Definition set_saved (l : list Anchor) (b : Browser) : Browser :=
  {| timers := timers b; nextTimer := nextTimer b; nextRecorder := nextRecorder b;
     recording := recording b; stopping := stopping b;
     awaiting := awaiting b; saved := l |}.

Definition onWidget (f : Widget -> Widget) (w : World) : World :=
  {| widget := f (widget w); browser := browser w |}.
Definition onBrowser (f : Browser -> Browser) (w : World) : World :=
  {| widget := widget w; browser := f (browser w) |}.

(** [setRecordingState(prev => ...)]: a functional update of the state
    object. *)
Definition setRecordingState (f : RecordingState -> RecordingState) (w : World) : World :=
  onWidget (fun c => set_recordingState (f (recordingState c)) c) w.

(** Lines 12-27: the state right after mount, with the hidden canvas in
    the tree and neither video element rendered yet. *)
Definition initialWidget : Widget :=
  {| recordingState := {| isRecording := false; isPaused := false;
                          recordedBlob := None; error := None |};
     videoUrl := EmptyString; isVideoLoaded := false;
     videoRef := None; recordedVideoRef := None;
     canvasRef := Some {| width := 300; height := 150 |};
     recorderRef := None; drawIntervalRef := None; recordedChunksRef := [] |}.

Definition initialBrowser : Browser :=
  {| timers := []; nextTimer := 1; nextRecorder := 1;
     recording := []; stopping := []; awaiting := []; saved := [] |}.

Definition initialWorld : World :=
  {| widget := initialWidget; browser := initialBrowser |}.

(** ** What the browser answers during a start attempt *)

(** The platform calls of the audio block (lines 57-81), in source order. *)
Inductive AudioStep : Type :=
| NewAudioContext
| ResumeAudioContext
| CreateMediaElementSource
| CreateMediaStreamDestination
| CreateGain
| ConnectSourceToGain
| ConnectGainToDestination
| ConnectGainToOutput
| NewMediaStream.

Record Platform : Type := mkPlatform {
  (** [canvas.getContext('2d')] is non-null *)
  getContext2d : bool;
  (** [canvas.captureStream(60)]: the id of the canvas video track *)
  captureStream : result nat;
  (** which audio calls throw (a rejected [resume()] included) *)
  audioThrows : AudioStep -> option Thrown;
  (** [audioCtx.state === 'suspended'] right after construction *)
  audioSuspended : bool;
  (** [dest.stream] *)
  destinationStream : MediaStream;
  (** [MediaRecorder.isTypeSupported] *)
  isTypeSupported : string -> bool;
  (** [new MediaRecorder(stream, { mimeType })]: the [mimeType] the new
      recorder reports, or the exception *)
  newMediaRecorder : MediaStream -> string -> result string;
  (** [recorder.start(100)] throws *)
  recorderStart : option Thrown
}.

(** ** Handlers run in a state-and-exception monad *)

Definition M (A : Type) : Type := World -> result A * World.

Definition ret {A : Type} (a : A) : M A := fun w => (Ok a, w).
Definition throw {A : Type} (e : Thrown) : M A := fun w => (Throw e, w).
Definition bind {A B : Type} (m : M A) (k : A -> M B) : M B :=
  fun w => match m w with
           | (Ok a, w') => k a w'
           | (Throw e, w') => (Throw e, w')
           end.
Definition gets {A : Type} (f : World -> A) : M A := fun w => (Ok (f w), w).
Definition modify (f : World -> World) : M unit := fun w => (Ok tt, f w).
Definition lift {A : Type} (r : result A) : M A := fun w => (r, w).
(** [try { m } catch (e) { h e }] *)
Definition tryCatch {A : Type} (m : M A) (h : Thrown -> M A) : M A :=
  fun w => match m w with
           | (Ok a, w') => (Ok a, w')
           | (Throw e, w') => h e w'
           end.
Definition exec {A : Type} (m : M A) (w : World) : World := snd (m w).

Declare Scope js_scope.
Delimit Scope js_scope with js.
Notation "x <- m ;; k" := (bind m (fun x => k))
  (at level 61, m at next level, right associativity) : js_scope.
Notation "m ;; k" := (bind m (fun _ => k))
  (at level 61, right associativity) : js_scope.
Local Open Scope js_scope.

(** [setInterval(...)]: a fresh positive id, now running. *)
Definition setInterval : M nat :=
  fun w =>
    let id := nextTimer (browser w) in
    (Ok id, onBrowser (fun b => set_nextTimer (S id) (set_timers (id :: timers b) b)) w).

(** [clearInterval(id)] *)
Definition clearInterval (id : nat) (w : World) : World :=
  onBrowser (fun b => set_timers (List.remove Nat.eq_dec id (timers b)) b) w.

Definition audioCall (p : Platform) (s : AudioStep) : result unit :=
  match audioThrows p s with
  | Some e => Throw e
  | None => Ok tt
  end.

Definition andThen {A B : Type} (r : result A) (k : A -> result B) : result B :=
  match r with
  | Ok a => k a
  | Throw e => Throw e
  end.

(** Lines 64-81: the audio graph behind the context, ending in the
    combined stream. *)
Definition buildAudioGraph (p : Platform) (videoStream : MediaStream) : result MediaStream :=
  andThen (audioCall p CreateMediaElementSource) (fun _ =>
  andThen (audioCall p CreateMediaStreamDestination) (fun _ =>
  andThen (audioCall p CreateGain) (fun _ =>
  andThen (audioCall p ConnectSourceToGain) (fun _ =>
  andThen (audioCall p ConnectGainToDestination) (fun _ =>
  andThen (audioCall p ConnectGainToOutput) (fun _ =>
  let audioStream := destinationStream p in
  andThen (audioCall p NewMediaStream) (fun _ =>
  Ok (getVideoTracks videoStream ++ getAudioTracks audioStream)))))))).

(** Lines 91-100: the option handed to the recorder constructor. *)
Definition selectOptions (supported : string -> bool) : string :=
  let options := "video/webm;codecs=vp9,opus" in
  let options := if negb (supported options) then "video/webm;codecs=vp8,opus" else options in
  let options := if negb (supported options) then "video/webm" else options in
  let options := if negb (supported options) then "video/mp4" else options in
  options.

(** Lines 136-141: the outer [catch]. *)
Definition errorMessage (e : Thrown) : string :=
  match e with
  | ErrorObject message => message
  | NonError => "Recording failed"
  end.

Definition catchStart (e : Thrown) : M unit :=
  modify (setRecordingState (set_error (Some (errorMessage e)))).

(** Lines 31-50.  [None] is the early [return] of line 34; otherwise the
    canvas stream. *)
Definition beginCapture (p : Platform) : M (option MediaStream) :=
  video <- gets (fun w => videoRef (widget w)) ;;
  canvas <- gets (fun w => canvasRef (widget w)) ;;
  match video, canvas with
  | Some video, Some canvas =>
      modify (setRecordingState (set_error None)) ;;
      (if getContext2d p then ret tt
       else throw (ErrorObject "Canvas context not available")) ;;
      modify (onWidget (set_canvasRef
                (Some {| width := videoWidth video; height := videoHeight video |}))) ;;
      id <- setInterval ;;
      modify (onWidget (set_drawIntervalRef (Some id))) ;;
      track <- lift (captureStream p) ;;
      ret (Some [ {| kind := VideoTrack; trackId := track |} ])
  | _, _ => ret None
  end.

(** Lines 88-134.  The two handlers assigned at lines 104 and 110 are
    [ondataavailable] and [onstop] below; they read the refs when they
    run, so attaching them changes no state here. *)
Definition record (p : Platform) (combinedStream : MediaStream) : M unit :=
  modify (onWidget (set_recordedChunksRef [])) ;;
  let options := selectOptions (isTypeSupported p) in
  mime <- lift (newMediaRecorder p combinedStream options) ;;
  id <- gets (fun w => nextRecorder (browser w)) ;;
  modify (onBrowser (set_nextRecorder (S id))) ;;
  modify (onWidget (set_recorderRef
            (Some {| recorderId := id; stream := combinedStream; mimeType := mime |}))) ;;
  match recorderStart p with
  | Some e => throw e
  | None => modify (onBrowser (fun b => set_recording (id :: recording b) b))
  end ;;
  modify (setRecordingState (set_isRecording true)).

(** Lines 64-134: what runs once the audio context is known to be
    running.  A throw of the audio graph is swallowed by the inner
    [catch] (lines 82-85) and leaves [combinedStream = videoStream]. *)
Definition continueStart (p : Platform) (videoStream : MediaStream) : M unit :=
  let combinedStream :=
    match buildAudioGraph p videoStream with
    | Ok s => s
    | Throw audioError => videoStream
    end in
  record p combinedStream.

(** How far an invocation of the async function got in this turn. *)
Inductive Progress : Type :=
| Completed
| Awaiting (videoStream : MediaStream).

(** Lines 29-62: [startRecording] up to the [await] of line 61, or to
    its end when the context is not suspended. *)
Definition startRecording_begin (p : Platform) : M Progress :=
  tryCatch
    (started <- beginCapture p ;;
     match started with
     | None => ret Completed
     | Some videoStream =>
         match audioCall p NewAudioContext with
         | Throw audioError => record p videoStream ;; ret Completed
         | Ok _ =>
             if audioSuspended p then ret (Awaiting videoStream)
             else continueStart p videoStream ;; ret Completed
         end
     end)
    (fun e => catchStart e ;; ret Completed).

(** The rest of the function, run in a later turn when the promise of
    [audioCtx.resume()] settles; a rejection is thrown inside the inner
    [try]. *)
Definition startRecording_resume (p : Platform) (videoStream : MediaStream) : M unit :=
  tryCatch
    (match audioCall p ResumeAudioContext with
     | Throw audioError => record p videoStream
     | Ok _ => continueStart p videoStream
     end)
    catchStart.

(** A start attempt taken as a whole: the turn that begins it and, if it
    suspended, the turn that resumes it, with nothing in between. *)
Definition startRecording (p : Platform) (w : World) : World :=
  match startRecording_begin p w with
  | (Ok (Awaiting videoStream), w') => exec (startRecording_resume p videoStream) w'
  | (_, w') => w'
  end.

(** ** The other handlers *)

(** Lines 104-108. *)
Definition ondataavailable (data : Blob) (w : World) : World :=
  if (0 <? size data)%nat
  then onWidget (fun c => set_recordedChunksRef (recordedChunksRef c ++ [data]) c) w
  else w.

(** [recorderRef.current?.mimeType || 'video/webm'] (line 117): the
    fallback is taken for a missing recorder and for an empty string. *)
Definition mimeTypeOrDefault (r : option MediaRecorder) : string :=
  match r with
  | Some recorder =>
      match mimeType recorder with
      | EmptyString => "video/webm"
      | m => m
      end
  | None => "video/webm"
  end.

(** Lines 110-131. *)
Definition onstop (w : World) : World :=
  let w :=
    match drawIntervalRef (widget w) with
    | Some id => onWidget (set_drawIntervalRef None) (clearInterval id w)
    | None => w
    end in
  let mimeType := mimeTypeOrDefault (recorderRef (widget w)) in
  let blob := newBlob (recordedChunksRef (widget w)) mimeType in
  let w := setRecordingState
             (fun prev => set_isRecording false (set_recordedBlob (Some blob) prev)) w in
  match recordedVideoRef (widget w) with
  | Some element => onWidget (set_recordedVideoRef (Some {| src := Some blob |})) w
  | None => w
  end.

(** [recorder.stop()]: a recording recorder becomes inactive at once and
    its [stop] event is queued; on an inactive one nothing happens. *)
Definition recorder_stop (id : nat) (w : World) : World :=
  if existsb (Nat.eqb id) (recording (browser w))
  then onBrowser (fun b => set_stopping (id :: stopping b)
                             (set_recording (List.remove Nat.eq_dec id (recording b)) b)) w
  else w.

(** Lines 144-148. *)
Definition stopRecording (w : World) : World :=
  match recorderRef (widget w) with
  | Some recorder =>
      if isRecording (recordingState (widget w))
      then recorder_stop (recorderId recorder) w
      else w
  | None => w
  end.

(** Lines 150-162, with [now] the value of [Date.now()]. *)
Definition downloadRecording (now : Z) (w : World) : World :=
  match recordedBlob (recordingState (widget w)) with
  | Some blob =>
      let extension := if includes (blobType blob) "mp4" then "mp4" else "webm" in
      let a := {| href := blob;
                  download := ("recorded-video-" ++ numberToString now ++ "." ++ extension)%string |} in
      onBrowser (fun b => set_saved (saved b ++ [a]) b) w
  | None => w
  end.

(** Lines 164-166. *)
Definition handleVideoLoad (w : World) : World :=
  onWidget (set_isVideoLoaded true) w.

(** Lines 168-174. *)
Definition handleVideoError (w : World) : World :=
  onWidget (set_isVideoLoaded false)
    (setRecordingState
       (set_error (Some "Failed to load video. Please check the URL.")) w).

(** Lines 176-185: the cleanup of the mount effect. *)
Definition cleanup (w : World) : World :=
  let w :=
    match drawIntervalRef (widget w) with
    | Some id => clearInterval id w
    | None => w
    end in
  match recorderRef (widget w) with
  | Some recorder => recorder_stop (recorderId recorder) w
  | None => w
  end.

(** ** The rendered controls and the event loop *)

(** [disabled] of the three buttons (lines 269, 278, 321). *)
Definition startDisabled (c : Widget) : bool :=
  negb (isVideoLoaded c) || isRecording (recordingState c).
Definition stopDisabled (c : Widget) : bool :=
  negb (isRecording (recordingState c)).
Definition downloadDisabled (c : Widget) : bool :=
  match recordedBlob (recordingState c) with
  | Some _ => false
  | None => true
  end.

(** A click on Start: nothing on a disabled button; otherwise the async
    function runs up to its first suspension. *)
Definition clickStart (p : Platform) (w : World) : World :=
  if startDisabled (widget w) then w
  else match startRecording_begin p w with
       | (Ok (Awaiting videoStream), w') =>
           onBrowser (fun b => set_awaiting (awaiting b ++ [videoStream]) b) w'
       | (_, w') => w'
       end.

Definition clickStop (w : World) : World :=
  if stopDisabled (widget w) then w else stopRecording w.

Definition clickDownload (now : Z) (w : World) : World :=
  if downloadDisabled (widget w) then w else downloadRecording now w.

(** Line 213. *)
Definition changeUrl (value : string) (w : World) : World :=
  onWidget (set_videoUrl value) w.

(** Line 218. *)
Definition clickLoadVideo (w : World) : World :=
  onWidget (set_isVideoLoaded false) w.

Fixpoint removeNth {A : Type} (n : nat) (l : list A) : list A :=
  match n, l with
  | _, [] => []
  | O, _ :: rest => rest
  | S m, x :: rest => x :: removeNth m rest
  end.

Inductive Event : Type :=
| ChangeUrl (value : string)
| ClickLoadVideo
| LoadedData (w h : nat)
| VideoError
| ClickStart (p : Platform)
| AudioResumed (n : nat) (p : Platform)
| ClickStop
| DataAvailable (id : nat) (data : Blob)
| Stopped (id : nat)
| ClickDownload (now : Z).

(** The handler an event runs.  Media events need their element in the
    tree, recorder events a recorder that was started, and a settled
    [resume()] one of the suspended start attempts. *)
Definition handle (e : Event) (w : World) : World :=
  match e with
  | ChangeUrl value => changeUrl value w
  | ClickLoadVideo => clickLoadVideo w
  | LoadedData vw vh =>
      match videoRef (widget w) with
      | Some _ =>
          handleVideoLoad
            (onWidget (set_videoRef (Some {| videoWidth := vw; videoHeight := vh |})) w)
      | None => w
      end
  | VideoError =>
      match videoRef (widget w) with
      | Some _ => handleVideoError w
      | None => w
      end
  | ClickStart p => clickStart p w
  | AudioResumed n p =>
      match nth_error (awaiting (browser w)) n with
      | Some videoStream =>
          exec (startRecording_resume p videoStream)
            (onBrowser (fun b => set_awaiting (removeNth n (awaiting b)) b) w)
      | None => w
      end
  | ClickStop => clickStop w
  | DataAvailable id data =>
      if existsb (Nat.eqb id) (recording (browser w) ++ stopping (browser w))
      then ondataavailable data w
      else w
  | Stopped id =>
      if existsb (Nat.eqb id) (stopping (browser w))
      then onstop (onBrowser
                     (fun b => set_stopping (List.remove Nat.eq_dec id (stopping b)) b) w)
      else w
  | ClickDownload now => clickDownload now w
  end.

(** React commits the re-rendered tree after the handler: the source
    video exists while [videoUrl] is non-empty (line 246), the playback
    element while a result blob exists (line 295); an element that stays
    in the tree is kept as it is. *)
Definition commit (w : World) : World :=
  onWidget (fun c =>
    let source :=
      match videoUrl c with
      | EmptyString => None
      | _ => match videoRef c with
             | Some v => Some v
             | None => Some {| videoWidth := 0; videoHeight := 0 |}
             end
      end in
    let playback :=
      match recordedBlob (recordingState c) with
      | Some _ => match recordedVideoRef c with
                  | Some element => Some element
                  | None => Some {| src := None |}
                  end
      | None => None
      end in
    set_recordedVideoRef playback (set_videoRef source c)) w.

Definition turn (w : World) (e : Event) : World := commit (handle e w).

Definition run (es : list Event) (w : World) : World := fold_left turn es w.

(** ** Notions the statements use *)

(** The priority list of the encoding selection, as the specification
    words it: the four candidates in order, the first supported one
    wins. *)
Definition priorityOrder : list string :=
  [ "video/webm;codecs=vp9,opus"; "video/webm;codecs=vp8,opus";
    "video/webm"; "video/mp4" ]%string.

Definition firstSupported (supported : string -> bool) : option string :=
  find supported priorityOrder.

(** The outcome of the whole inner [try] block (lines 55-81) of a start
    attempt that is not interleaved with other events. *)
Definition audioOutcome (p : Platform) (videoStream : MediaStream) : result MediaStream :=
  andThen (audioCall p NewAudioContext) (fun _ =>
  andThen (if audioSuspended p then audioCall p ResumeAudioContext else Ok tt) (fun _ =>
  buildAudioGraph p videoStream)).

(** The canvas stream of a start attempt. *)
Definition canvasStream (track : nat) : MediaStream :=
  [ {| kind := VideoTrack; trackId := track |} ].

(** The playback element plays [b]. *)
Definition exposedForPlayback (w : World) (b : Blob) : Prop :=
  exists element, recordedVideoRef (widget w) = Some element /\ src element = Some b.

(** The download action is enabled and hands out [b]. *)
Definition exposedForDownload (w : World) (b : Blob) : Prop :=
  downloadDisabled (widget w) = false /\
  forall now, exists name,
    saved (browser (clickDownload now w)) = saved (browser w) ++ [ {| href := b; download := name |} ].

Definition nonEmpty (fragment : Blob) : Prop := 0 < size fragment.

(** A recording session is open for every recorder in state
    ['recording']. *)
Definition activeSessions (w : World) : nat := length (recording (browser w)).

(** Projections used throughout. *)
Definition errorOf (w : World) : option string := error (recordingState (widget w)).
Definition recordingFlag (w : World) : bool := isRecording (recordingState (widget w)).
Definition resultOf (w : World) : option Blob := recordedBlob (recordingState (widget w)).


(** The state a start attempt has reached once the canvas stream exists
    (after line 50): error cleared, drawing surface sized to the video,
    the frame timer running and held in [drawIntervalRef]. *)
Definition captureStarted (video : HTMLVideoElement) (w : World) : World :=
  onWidget (set_drawIntervalRef (Some (nextTimer (browser w))))
    (onBrowser (fun b => set_nextTimer (S (nextTimer b))
                           (set_timers (nextTimer b :: timers b) b))
       (onWidget (set_canvasRef
                    (Some {| width := videoWidth video; height := videoHeight video |}))
          (setRecordingState (set_error None) w))).

(** The recorder a successful construction leaves in [recorderRef]. *)
Definition constructed (combinedStream : MediaStream) (mime : string) (w : World) : World :=
  onWidget (set_recorderRef
              (Some {| recorderId := nextRecorder (browser w);
                       stream := combinedStream; mimeType := mime |}))
    (onBrowser (set_nextRecorder (S (nextRecorder (browser w))))
       (onWidget (set_recordedChunksRef []) w)).

(** The state after line 134 of a start attempt that went through. *)
Definition sessionOpened (combinedStream : MediaStream) (mime : string) (w : World) : World :=
  setRecordingState (set_isRecording true)
    (onBrowser (fun b => set_recording (nextRecorder (browser w) :: recording b) b)
       (constructed combinedStream mime w)).

(** The stream handed to the recorder: the combined one, or the canvas
    stream alone when the audio block threw. *)
Definition combinedOr (audio : result MediaStream) (videoStream : MediaStream) : MediaStream :=
  match audio with
  | Ok s => s
  | Throw _ => videoStream
  end.

(** The platform [p] with another recorder constructor. *)
Definition withConstructor (f : MediaStream -> string -> result string) (p : Platform) : Platform :=
  {| getContext2d := getContext2d p; captureStream := captureStream p;
     audioThrows := audioThrows p; audioSuspended := audioSuspended p;
     destinationStream := destinationStream p; isTypeSupported := isTypeSupported p;
     newMediaRecorder := f; recorderStart := recorderStart p |}.

(** ** Sample platforms and states *)

(** A browser that records WebM, builds the audio graph and has its
    audio context running at once. *)
Definition webmBrowser : Platform :=
  {| getContext2d := true; captureStream := Ok 7;
     audioThrows := fun _ => None; audioSuspended := false;
     destinationStream := [ {| kind := AudioTrack; trackId := 9 |} ];
     isTypeSupported := fun m => String.eqb m "video/webm";
     newMediaRecorder := fun _ m => Ok m;
     recorderStart := None |}.

(** A browser without any of the four encodings: the constructor
    rejects the fallback option. *)
Definition noEncoderBrowser : Platform :=
  {| getContext2d := true; captureStream := Ok 7;
     audioThrows := fun _ => None; audioSuspended := false;
     destinationStream := [ {| kind := AudioTrack; trackId := 9 |} ];
     isTypeSupported := fun _ => false;
     newMediaRecorder := fun _ _ => Throw (ErrorObject "NotSupportedError");
     recorderStart := None |}.

(** A browser whose source element is already wired to an audio graph:
    [createMediaElementSource] throws. *)
Definition audioBlockedBrowser : Platform :=
  {| getContext2d := true; captureStream := Ok 7;
     audioThrows := fun s =>
       match s with
       | CreateMediaElementSource => Some (ErrorObject "InvalidStateError")
       | _ => None
       end;
     audioSuspended := false;
     destinationStream := [ {| kind := AudioTrack; trackId := 9 |} ];
     isTypeSupported := fun m => String.eqb m "video/webm";
     newMediaRecorder := fun _ m => Ok m;
     recorderStart := None |}.

(** A browser whose audio context starts suspended, so that the start
    routine waits for [resume()]. *)
Definition suspendedAudioBrowser : Platform :=
  {| getContext2d := true; captureStream := Ok 7;
     audioThrows := fun _ => None; audioSuspended := true;
     destinationStream := [ {| kind := AudioTrack; trackId := 9 |} ];
     isTypeSupported := fun m => String.eqb m "video/webm";
     newMediaRecorder := fun _ m => Ok m;
     recorderStart := None |}.

(** The same, at the second use of the source element. *)
Definition suspendedAudioBlockedBrowser : Platform :=
  {| getContext2d := true; captureStream := Ok 8;
     audioThrows := audioThrows audioBlockedBrowser; audioSuspended := true;
     destinationStream := [];
     isTypeSupported := fun m => String.eqb m "video/webm";
     newMediaRecorder := fun _ m => Ok m;
     recorderStart := None |}.

Definition sampleUrl : string := "https://example.com/sample.mp4".

(** The widget with a source video loaded. *)
Definition loadedWorld : World :=
  run [ChangeUrl sampleUrl; LoadedData 640 360] initialWorld.

Definition sampleFragment : Blob :=
  {| blobData := [Byte.x1a; Byte.x45]; blobType := "video/webm" |}.

(** The test of line 105. *)
Definition nonEmptyb (fragment : Blob) : bool := (0 <? size fragment)%nat.

(** The events of a session with recorder [id] that is stopped by the
    user: the recorder delivers [fragments], Stop is clicked, and the
    recorder reports [stop]. *)
Definition sessionEvents (id : nat) (fragments : list Blob) : list Event :=
  map (DataAvailable id) fragments ++ [ClickStop; Stopped id].

(** The invariant of the fragment list. *)
Definition fragmentsInvariant (w : World) : Prop :=
  Forall nonEmpty (recordedChunksRef (widget w)).

(** Lines 117-118: the blob the stop handler makes in state [w]. *)
Definition finalBlob (w : World) : Blob :=
  newBlob (recordedChunksRef (widget w)) (mimeTypeOrDefault (recorderRef (widget w))).

(** An event other than a recorder's [stop]. *)
Definition notStopEvent (e : Event) : bool :=
  match e with
  | Stopped _ => false
  | _ => true
  end.

(** An event other than the source element's load signal. *)
Definition notLoadSignal (e : Event) : bool :=
  match e with
  | LoadedData _ _ => false
  | _ => true
  end.

Definition otherUrl : string := "https://example.com/other.mp4".

(** The exceptions a start attempt can surface through the outer
    [catch]: the missing context, a throwing [captureStream], a throwing
    recorder constructor and a throwing [start]. *)
Definition thrownByStart (p : Platform) (e : Thrown) : Prop :=
  (getContext2d p = false /\ e = ErrorObject "Canvas context not available") \/
  captureStream p = Throw e \/
  (exists s, newMediaRecorder p s (selectOptions (isTypeSupported p)) = Throw e) \/
  recorderStart p = Some e.

(** A state with a stored error and no source element: a start failed
    for want of an encoder, then the URL field was emptied. *)
Definition erroredWithoutSource : World :=
  run [ClickStart noEncoderBrowser; ChangeUrl EmptyString] loadedWorld.

(** The first session of a freshly loaded widget, up to the click on
    Stop: the recorder's [stop] event is still to come. *)
Definition firstSessionStopping : World :=
  run [ClickStart webmBrowser; DataAvailable 1 sampleFragment; ClickStop] loadedWorld.

Definition firstResult : Blob :=
  newBlob [sampleFragment] "video/webm".

(** A start that fails for want of an encoder, then a complete session
    on a browser that has one. *)
Definition failedThenRecorded : World :=
  run (ClickStart noEncoderBrowser :: ClickStart webmBrowser ::
       sessionEvents 1 [sampleFragment]) loadedWorld.

(** Two presses on Start while the first attempt waits for the audio
    context, then both contexts resume. *)
Definition doubleStart : list Event :=
  [ ClickStart suspendedAudioBrowser; ClickStart suspendedAudioBlockedBrowser;
    AudioResumed 0 suspendedAudioBrowser; AudioResumed 0 suspendedAudioBlockedBrowser ].

(** The first session brought to its result. *)
Definition firstSessionDone : World :=
  run [ClickStart webmBrowser; DataAvailable 1 sampleFragment; ClickStop; Stopped 1]
    loadedWorld.

Definition emptyFragment : Blob :=
  {| blobData := []; blobType := "video/webm" |}.

(** The fields a piece of the start routine does not write: the result
    blob and the loaded flag stay, the fragment list stays or is
    emptied. *)
Definition startFrame (w w' : World) : Prop :=
  resultOf w' = resultOf w /\
  isVideoLoaded (widget w') = isVideoLoaded (widget w) /\
  videoUrl (widget w') = videoUrl (widget w) /\
  (recordedChunksRef (widget w') = recordedChunksRef (widget w) \/
   recordedChunksRef (widget w') = []).

(** What a start attempt may do to the sessions: leave them, or open
    one more and raise the recording flag. *)
Definition sessionStep (w w' : World) : Prop :=
  stopping (browser w') = stopping (browser w) /\
  awaiting (browser w') = awaiting (browser w) /\
  ((recording (browser w') = recording (browser w) /\
    recordingFlag w' = recordingFlag w) \/
   (exists id, recording (browser w') = id :: recording (browser w)) /\
   recordingFlag w' = true).

(** No start attempt of the trace has to wait for its audio context. *)
Definition startsRunThrough (es : list Event) : bool :=
  forallb (fun e => match e with
                    | ClickStart p => negb (audioSuspended p)
                    | _ => true
                    end) es.

(** With every start attempt complete within its turn: at most one
    recorder is recording or stopping, and none when the flag is down. *)
Definition oneSession (w : World) : Prop :=
  awaiting (browser w) = [] /\
  length (recording (browser w) ++ stopping (browser w)) <= 1 /\
  (recordingFlag w = false ->
   recording (browser w) = [] /\ stopping (browser w) = []).

(** ** Further notions: the rendered tree and the files saved *)

(** Line 227: the error banner is rendered when [recordingState.error]
    is truthy, that is, a non-empty string. *)
Definition errorBanner (c : Widget) : option string :=
  match error (recordingState c) with
  | Some (String a rest) => Some (String a rest)
  | _ => None
  end.

(** Lines 246 and 295 after a commit: the source element is in the tree
    exactly while a URL is entered, the playback element exactly while a
    result exists, and the playback element plays nothing or the current
    result. *)
Definition rendered (w : World) : Prop :=
  (videoRef (widget w) = None <-> videoUrl (widget w) = EmptyString) /\
  (recordedVideoRef (widget w) = None <-> resultOf w = None) /\
  (forall element, recordedVideoRef (widget w) = Some element ->
     src element = None \/ src element = resultOf w).

(** The file name the download action gives a blob at time [now]. *)
Definition fileNameFor (blob : Blob) (now : Z) : string :=
  ("recorded-video-" ++ numberToString now ++ "." ++
   (if includes (blobType blob) "mp4" then "mp4" else "webm"))%string.

(** Timers: ids are handed out once, and the timer held in
    [drawIntervalRef] is running. *)
Definition timersInvariant (w : World) : Prop :=
  NoDup (timers (browser w)) /\
  (forall id, In id (timers (browser w)) -> id < nextTimer (browser w)) /\
  (forall id, drawIntervalRef (widget w) = Some id -> In id (timers (browser w))).

(** With every start attempt complete within its turn: while the
    recording flag is up, the recorder in [recorderRef] is the one that
    records or is being stopped. *)
Definition stopReaches (w : World) : Prop :=
  oneSession w /\
  (recordingFlag w = true ->
   exists recorder, recorderRef (widget w) = Some recorder /\
     recording (browser w) ++ stopping (browser w) = [recorderId recorder]).

(** A browser whose canvas gives no 2d context. *)
Definition noContextBrowser : Platform :=
  {| getContext2d := false; captureStream := Ok 7;
     audioThrows := fun _ => None; audioSuspended := false;
     destinationStream := [ {| kind := AudioTrack; trackId := 9 |} ];
     isTypeSupported := fun m => String.eqb m "video/webm";
     newMediaRecorder := fun _ m => Ok m;
     recorderStart := None |}.

(** The stream a start attempt hands to the recorder. *)
Definition recordedStream (p : Platform) (track : nat) : MediaStream :=
  combinedOr (audioOutcome p (canvasStream track)) (canvasStream track).

(** The attempt throws [e] after the frame timer was started: from
    [captureStream], from the recorder constructor, or from [start]. *)
Definition throwsAfterTimer (p : Platform) (e : Thrown) : Prop :=
  captureStream p = Throw e \/
  exists track,
    captureStream p = Ok track /\
    (newMediaRecorder p (recordedStream p track) (selectOptions (isTypeSupported p)) = Throw e \/
     exists mime,
       newMediaRecorder p (recordedStream p track) (selectOptions (isTypeSupported p)) = Ok mime /\
       recorderStart p = Some e).

(** What no part of the start routine writes: the two video refs, the
    URL, the result and the saved files. *)
Definition refsKept (w w' : World) : Prop :=
  videoRef (widget w') = videoRef (widget w) /\
  recordedVideoRef (widget w') = recordedVideoRef (widget w) /\
  videoUrl (widget w') = videoUrl (widget w) /\
  resultOf w' = resultOf w /\
  saved (browser w') = saved (browser w).

(** What the start routine does to the timers: nothing, or one fresh
    timer that it holds in [drawIntervalRef]. *)
Definition timerStep (w w' : World) : Prop :=
  (timers (browser w') = timers (browser w) /\
   nextTimer (browser w') = nextTimer (browser w) /\
   drawIntervalRef (widget w') = drawIntervalRef (widget w)) \/
  (timers (browser w') = nextTimer (browser w) :: timers (browser w) /\
   nextTimer (browser w') = S (nextTimer (browser w)) /\
   drawIntervalRef (widget w') = Some (nextTimer (browser w))).

(** A browser whose recorder constructor throws an [Error] without
    message. *)
Definition muteFailureBrowser : Platform :=
  withConstructor (fun _ _ => Throw (ErrorObject EmptyString)) webmBrowser.

(** An event that runs no part of the start routine. *)
Definition notStartEvent (e : Event) : bool :=
  match e with
  | ClickStart _ | AudioResumed _ _ => false
  | _ => true
  end.

(** * Properties *)

#[local] Arguments record : simpl never.
#[local] Arguments beginCapture : simpl never.

Ltac case_record :=
  match goal with
  | |- context [record ?p ?s ?w] => destruct (record p s w) as [[[]|?] ?]
  end.

(** ** Strings *)

Lemma prefix_append (a b : string) :
  String.prefix a b = true <-> exists post, b = (a ++ post)%string.
Proof.
  revert b. induction a as [|c a IH]; intros b; simpl.
  - split; [intros _; now exists b | intros _; now destruct b].
  - destruct b as [|d b].
    + split; [discriminate | intros [post H]; discriminate].
    + simpl. destruct (ascii_dec c d) as [->|Hne].
      * rewrite IH. split; intros [post H]; exists post.
        -- now rewrite H.
        -- now inversion H.
      * split; [discriminate | intros [post H]; inversion H; congruence].
Qed.

Lemma includes_occurs (s sub : string) :
  includes s sub = true <-> exists pre post, s = (pre ++ sub ++ post)%string.
Proof.
  induction s as [|c rest IH]; cbn [includes].
  - destruct (String.prefix sub EmptyString) eqn:Hp.
    + split; [intros _ | reflexivity].
      apply prefix_append in Hp. destruct Hp as [post H]. now exists EmptyString, post.
    + split; [discriminate |].
      intros [pre [post H]]. destruct pre; [|discriminate].
      assert (String.prefix sub EmptyString = true) by (apply prefix_append; now exists post).
      congruence.
  - destruct (String.prefix sub (String c rest)) eqn:Hp.
    + split; [intros _ | reflexivity].
      apply prefix_append in Hp. destruct Hp as [post H]. now exists EmptyString, post.
    + rewrite IH. split.
      * intros [pre [post H]]. exists (String c pre), post. simpl. now rewrite H.
      * intros [pre [post H]]. destruct pre as [|d pre].
        -- assert (String.prefix sub (String c rest) = true)
             by (apply prefix_append; now exists post).
           congruence.
        -- inversion H. now exists pre, post.
Qed.

Lemma numberToString_decimal (n : Z) :
  option_map Z.of_int (NilZero.int_of_string (numberToString n)) = Some n.
Proof.
  unfold numberToString. rewrite NilZero.isi.
  - simpl. now rewrite DecimalZ.of_to.
  - destruct n; simpl; try discriminate.
    intros H. inversion H. now apply (DecimalPos.Unsigned.to_uint_nonnil p).
  - destruct n; simpl; try discriminate.
    intros H. inversion H. now apply (DecimalPos.Unsigned.to_uint_nonnil p).
Qed.

(** ** Stop and download *)

(** C7.  When no recording is active, be it that [isRecording] is false
    or that no recorder exists, invoking Stop changes nothing: neither
    the handler nor a click on the button alters any part of the state. *)
Theorem stop_without_recording_is_noop (w : World) :
  recordingFlag w = false \/ recorderRef (widget w) = None ->
  stopRecording w = w /\ clickStop w = w.
Proof.
  unfold recordingFlag, clickStop, stopDisabled, stopRecording.
  intros [H | H]; rewrite H; simpl.
  - split; [now destruct (recorderRef (widget w)) | reflexivity].
  - split; [reflexivity | now destruct (negb _)].
Qed.

Lemma stop_without_recording_is_noop_witness :
  recordingFlag initialWorld = false /\
  stopRecording initialWorld = initialWorld /\ clickStop initialWorld = initialWorld.
Proof.
  split; [reflexivity |].
  apply (stop_without_recording_is_noop initialWorld). left. reflexivity.
Defined.

(** C5.  For every result blob the download action saves one file,
    named recorded-video-<epoch-millis>.<ext>: the millisecond count in
    decimal, and an extension that is "mp4" exactly when the blob's MIME
    type contains "mp4" and "webm" in every other case. *)
Theorem download_file_name (w : World) (blob : Blob) (now : Z) :
  resultOf w = Some blob ->
  exists millis extension : string,
    clickDownload now w = downloadRecording now w /\
    saved (browser (downloadRecording now w)) =
      saved (browser w) ++
      [ {| href := blob;
           download := ("recorded-video-" ++ millis ++ "." ++ extension)%string |} ] /\
    option_map Z.of_int (NilZero.int_of_string millis) = Some now /\
    (extension = "mp4"%string <->
       exists pre post, blobType blob = (pre ++ "mp4" ++ post)%string) /\
    (extension <> "mp4"%string -> extension = "webm"%string).
Proof.
  unfold resultOf. intros Hblob.
  exists (numberToString now),
         (if includes (blobType blob) "mp4" then "mp4" else "webm")%string.
  unfold clickDownload, downloadDisabled, downloadRecording. rewrite Hblob.
  split; [reflexivity |]. split; [reflexivity |].
  split; [apply numberToString_decimal |].
  rewrite <- includes_occurs.
  destruct (includes (blobType blob) "mp4"); split.
  - tauto.
  - congruence.
  - split; discriminate.
  - reflexivity.
Qed.

Lemma download_file_name_witness :
  resultOf firstSessionDone = Some firstResult /\
  exists millis extension : string,
    saved (browser (downloadRecording 1700000000000 firstSessionDone)) =
      [ {| href := firstResult;
           download := ("recorded-video-" ++ millis ++ "." ++ extension)%string |} ] /\
    option_map Z.of_int (NilZero.int_of_string millis) = Some 1700000000000%Z.
Proof.
  split; [reflexivity |].
  destruct (download_file_name firstSessionDone firstResult 1700000000000 eq_refl)
    as [millis [extension [_ [Hsaved [Hmillis _]]]]].
  exists millis, extension. split; [exact Hsaved | exact Hmillis].
Defined.

(** ** Encoding selection and recorder construction *)

Lemma selectOptions_firstSupported (supported : string -> bool) :
  selectOptions supported =
  match firstSupported supported with
  | Some option => option
  | None => "video/mp4"%string
  end.
Proof.
  unfold selectOptions, firstSupported, priorityOrder. cbn [find].
  destruct (supported "video/webm;codecs=vp9,opus") eqn:H9;
    repeat (cbn [negb]; rewrite ?H9); [reflexivity |].
  destruct (supported "video/webm;codecs=vp8,opus") eqn:H8;
    repeat (cbn [negb]; rewrite ?H8); [reflexivity |].
  destruct (supported "video/webm") eqn:Hw; cbn [negb]; [reflexivity |].
  now destruct (supported "video/mp4").
Qed.

Lemma beginCapture_returns (p : Platform) (w : World) :
  videoRef (widget w) = None \/ canvasRef (widget w) = None ->
  beginCapture p w = (Ok None, w).
Proof.
  unfold beginCapture, bind, gets. cbn.
  intros [H | H]; rewrite H; [reflexivity |].
  now destruct (videoRef (widget w)).
Qed.

Lemma beginCapture_no_context (p : Platform) (w : World) video canvas :
  videoRef (widget w) = Some video -> canvasRef (widget w) = Some canvas ->
  getContext2d p = false ->
  beginCapture p w =
  (Throw (ErrorObject "Canvas context not available"),
   setRecordingState (set_error None) w).
Proof.
  intros Hv Hc Hctx. unfold beginCapture, bind, gets, modify, throw. cbn.
  now rewrite Hv, Hc, Hctx.
Qed.

Lemma beginCapture_stream (p : Platform) (w : World) video canvas :
  videoRef (widget w) = Some video -> canvasRef (widget w) = Some canvas ->
  getContext2d p = true ->
  beginCapture p w =
  (match captureStream p with
   | Ok track => Ok (Some (canvasStream track))
   | Throw e => Throw e
   end, captureStarted video w).
Proof.
  intros Hv Hc Hctx.
  unfold beginCapture, bind, gets, modify, throw, ret, lift, setInterval. cbn.
  rewrite Hv, Hc, Hctx. cbn.
  now destruct (captureStream p).
Qed.

Lemma record_cases (p : Platform) (combinedStream : MediaStream) (w : World) :
  record p combinedStream w =
  match newMediaRecorder p combinedStream (selectOptions (isTypeSupported p)) with
  | Throw e => (Throw e, onWidget (set_recordedChunksRef []) w)
  | Ok mime =>
      match recorderStart p with
      | Some e => (Throw e, constructed combinedStream mime w)
      | None => (Ok tt, sessionOpened combinedStream mime w)
      end
  end.
Proof.
  unfold record, bind, gets, modify, throw, lift. cbn.
  destruct (newMediaRecorder p combinedStream _); [|reflexivity].
  now destruct (recorderStart p).
Qed.

(** A start attempt that got its canvas stream and is not interleaved
    with other events runs [record] on the combined stream, under the
    outer [catch]. *)
Lemma startRecording_records (p : Platform) (w : World) video canvas track :
  videoRef (widget w) = Some video -> canvasRef (widget w) = Some canvas ->
  getContext2d p = true -> captureStream p = Ok track ->
  startRecording p w =
  exec (tryCatch (record p (combinedOr (audioOutcome p (canvasStream track))
                                       (canvasStream track)))
                 catchStart)
       (captureStarted video w).
Proof.
  intros Hv Hc Hctx Hcap.
  unfold startRecording, startRecording_begin, startRecording_resume, continueStart,
    audioOutcome, exec, tryCatch, bind, ret.
  rewrite (beginCapture_stream p w video canvas Hv Hc Hctx), Hcap.
  destruct (audioCall p NewAudioContext); cbn [andThen combinedOr].
  - destruct (audioSuspended p); cbn.
    + destruct (audioCall p ResumeAudioContext); cbn [andThen combinedOr];
        fold (combinedOr (buildAudioGraph p (canvasStream track)) (canvasStream track));
        now case_record.
    + fold (combinedOr (buildAudioGraph p (canvasStream track)) (canvasStream track)).
      now case_record.
  - now case_record.
Qed.

Lemma record_same_constructor (p : Platform) f s (w : World) :
  f s (selectOptions (isTypeSupported p)) =
    newMediaRecorder p s (selectOptions (isTypeSupported p)) ->
  record (withConstructor f p) s w = record p s w.
Proof.
  intros H. rewrite !record_cases. cbn [withConstructor isTypeSupported
    newMediaRecorder recorderStart]. now rewrite H.
Qed.

Lemma startRecording_same_constructor (p : Platform) f (w : World) :
  (forall s, f s (selectOptions (isTypeSupported p)) =
             newMediaRecorder p s (selectOptions (isTypeSupported p))) ->
  startRecording (withConstructor f p) w = startRecording p w.
Proof.
  intros H.
  unfold startRecording, startRecording_begin, startRecording_resume, continueStart,
    exec, tryCatch, bind, ret.
  change (beginCapture (withConstructor f p)) with (beginCapture p).
  change (audioCall (withConstructor f p)) with (audioCall p).
  change (buildAudioGraph (withConstructor f p)) with (buildAudioGraph p).
  change (audioSuspended (withConstructor f p)) with (audioSuspended p).
  destruct (beginCapture p w) as [[[videoStream|]|e] w1]; try reflexivity.
  destruct (audioCall p NewAudioContext).
  - destruct (audioSuspended p).
    + cbn [snd]. destruct (audioCall p ResumeAudioContext);
        now rewrite record_same_constructor by apply H.
    + rewrite record_same_constructor by apply H. now case_record.
  - rewrite record_same_constructor by apply H. now case_record.
Qed.

(** A start attempt whose recorder constructor throws: the outer catch
    reports the message; nothing else of the attempt is undone. *)
Lemma startRecording_constructor_fails (p : Platform) (w : World) video canvas track e :
  videoRef (widget w) = Some video -> canvasRef (widget w) = Some canvas ->
  getContext2d p = true -> captureStream p = Ok track ->
  newMediaRecorder p
    (combinedOr (audioOutcome p (canvasStream track)) (canvasStream track))
    (selectOptions (isTypeSupported p)) = Throw e ->
  startRecording p w =
  setRecordingState (set_error (Some (errorMessage e)))
    (onWidget (set_recordedChunksRef []) (captureStarted video w)).
Proof.
  intros Hv Hc Hctx Hcap Hnew.
  rewrite (startRecording_records p w video canvas track Hv Hc Hctx Hcap).
  unfold exec, tryCatch. now rewrite record_cases, Hnew.
Qed.

(** C2.  The option handed to the recorder constructor is the first of
    WebM/VP9+Opus, WebM/VP8+Opus, plain WebM, plain MP4 (in this order)
    that the support predicate accepts, MP4 standing in when none is;
    the constructor is consulted at that option only; and when it
    throws there, the start attempt fails: its message becomes the
    error and no session is opened. *)
Theorem encoding_selection (p : Platform) (w : World) :
  let chosen := selectOptions (isTypeSupported p) in
  chosen = match firstSupported (isTypeSupported p) with
           | Some option => option
           | None => "video/mp4"%string
           end /\
  (forall f, (forall s, f s chosen = newMediaRecorder p s chosen) ->
             startRecording (withConstructor f p) w = startRecording p w) /\
  (forall video canvas track e,
     videoRef (widget w) = Some video -> canvasRef (widget w) = Some canvas ->
     getContext2d p = true -> captureStream p = Ok track ->
     newMediaRecorder p
       (combinedOr (audioOutcome p (canvasStream track)) (canvasStream track))
       chosen = Throw e ->
     errorOf (startRecording p w) = Some (errorMessage e) /\
     recordingFlag (startRecording p w) = recordingFlag w /\
     recorderRef (widget (startRecording p w)) = recorderRef (widget w) /\
     recording (browser (startRecording p w)) = recording (browser w)).
Proof.
  cbv zeta. split; [apply selectOptions_firstSupported |].
  split; [intros f Hf; now apply startRecording_same_constructor |].
  intros video canvas track e Hv Hc Hctx Hcap Hnew.
  rewrite (startRecording_constructor_fails p w video canvas track e Hv Hc Hctx Hcap Hnew).
  repeat split.
Qed.

Lemma encoding_selection_witness :
  selectOptions (isTypeSupported webmBrowser) = "video/webm"%string /\
  errorOf (startRecording noEncoderBrowser loadedWorld) = Some "NotSupportedError"%string /\
  recordingFlag (startRecording noEncoderBrowser loadedWorld) = false.
Proof.
  split; [exact (proj1 (encoding_selection webmBrowser initialWorld)) |].
  destruct (encoding_selection noEncoderBrowser loadedWorld) as [_ [_ H]].
  destruct (H {| videoWidth := 640; videoHeight := 360 |}
              {| width := 300; height := 150 |} 7
              (ErrorObject "NotSupportedError")
              eq_refl eq_refl eq_refl eq_refl eq_refl) as [He [Hr _]].
  split; [exact He | exact Hr].
Defined.

(** ** A session from start to result *)

Lemma run_app (es1 es2 : list Event) (w : World) :
  run (es1 ++ es2) w = run es2 (run es1 w).
Proof. apply fold_left_app. Qed.

Lemma existsb_eqb_In (id : nat) (l : list nat) :
  existsb (Nat.eqb id) l = true <-> In id l.
Proof.
  rewrite existsb_exists. split.
  - intros [x [Hin Heq]]. apply Nat.eqb_eq in Heq. now subst.
  - intros Hin. exists id. split; [assumption | apply Nat.eqb_refl].
Qed.

(** Fragments delivered by a started recorder: the non-empty ones are
    appended in delivery order, nothing else moves. *)
Lemma data_events (id : nat) (fragments : list Blob) (w : World) :
  In id (recording (browser w) ++ stopping (browser w)) ->
  let w1 := run (map (DataAvailable id) fragments) w in
  recordedChunksRef (widget w1) =
    recordedChunksRef (widget w) ++ filter nonEmptyb fragments /\
  recordingState (widget w1) = recordingState (widget w) /\
  recorderRef (widget w1) = recorderRef (widget w) /\
  drawIntervalRef (widget w1) = drawIntervalRef (widget w) /\
  browser w1 = browser w.
Proof.
  revert w. induction fragments as [|f fs IH]; intros w Hin; cbn [map run fold_left].
  - rewrite app_nil_r. repeat split.
  - fold (run (map (DataAvailable id) fs) (turn w (DataAvailable id f))).
    assert (Hturn : recordedChunksRef (widget (turn w (DataAvailable id f))) =
                      recordedChunksRef (widget w) ++ filter nonEmptyb [f] /\
                    recordingState (widget (turn w (DataAvailable id f))) =
                      recordingState (widget w) /\
                    recorderRef (widget (turn w (DataAvailable id f))) =
                      recorderRef (widget w) /\
                    drawIntervalRef (widget (turn w (DataAvailable id f))) =
                      drawIntervalRef (widget w) /\
                    browser (turn w (DataAvailable id f)) = browser w).
    { unfold turn, handle, ondataavailable.
      apply existsb_eqb_In in Hin. rewrite Hin.
      cbn [filter]. fold (nonEmptyb f).
      destruct (nonEmptyb f); cbn; rewrite ?app_nil_r; repeat split. }
    destruct Hturn as [Hc [Hs [Hr [Hd Hb]]]].
    destruct (IH (turn w (DataAvailable id f))) as [Hc' [Hs' [Hr' [Hd' Hb']]]].
    { now rewrite Hb. }
    rewrite Hc', Hs', Hr', Hd', Hb', Hc, Hs, Hr, Hd, Hb.
    rewrite <- app_assoc. repeat split.
    cbn [filter]. now destruct (nonEmptyb f).
Qed.

(** What the stop handler leaves behind, field by field. *)
Lemma onstop_result (w : World) :
  resultOf (onstop w) =
  Some (newBlob (recordedChunksRef (widget w)) (mimeTypeOrDefault (recorderRef (widget w)))).
Proof.
  unfold onstop, resultOf.
  destruct (drawIntervalRef (widget w)); cbn;
    now destruct (recordedVideoRef (widget w)).
Qed.

Lemma onstop_flags (w : World) :
  recordingFlag (onstop w) = false /\ errorOf (onstop w) = errorOf w /\
  drawIntervalRef (widget (onstop w)) = None /\
  recorderRef (widget (onstop w)) = recorderRef (widget w) /\
  recordedChunksRef (widget (onstop w)) = recordedChunksRef (widget w).
Proof.
  unfold onstop, recordingFlag, errorOf.
  destruct (drawIntervalRef (widget w)) eqn:Hd; cbn;
    destruct (recordedVideoRef (widget w)); cbn; now rewrite ?Hd.
Qed.

Lemma onstop_timers (w : World) :
  timers (browser (onstop w)) =
  match drawIntervalRef (widget w) with
  | Some id => List.remove Nat.eq_dec id (timers (browser w))
  | None => timers (browser w)
  end.
Proof.
  unfold onstop.
  destruct (drawIntervalRef (widget w)); cbn;
    now destruct (recordedVideoRef (widget w)).
Qed.

Lemma onstop_playback (w : World) :
  recordedVideoRef (widget (onstop w)) =
  match recordedVideoRef (widget w) with
  | Some _ =>
      Some {| src := Some (newBlob (recordedChunksRef (widget w))
                                   (mimeTypeOrDefault (recorderRef (widget w)))) |}
  | None => None
  end.
Proof.
  unfold onstop.
  destruct (drawIntervalRef (widget w)); cbn;
    destruct (recordedVideoRef (widget w)) eqn:Hp; cbn; now rewrite ?Hp.
Qed.

Lemma clickStop_open (w : World) (r : MediaRecorder) :
  recorderRef (widget w) = Some r ->
  recordingFlag w = true ->
  In (recorderId r) (recording (browser w)) ->
  clickStop w =
  onBrowser (fun b => set_stopping (recorderId r :: stopping b)
                        (set_recording (List.remove Nat.eq_dec (recorderId r) (recording b)) b)) w.
Proof.
  unfold recordingFlag. intros Hr Hflag Hin. apply existsb_eqb_In in Hin.
  unfold clickStop, stopDisabled, stopRecording, recorder_stop.
  now rewrite Hflag, Hr, Hin.
Qed.

(** Stop clicked on an open session, then the recorder's [stop] event:
    the result is the blob of the fragment list. *)
Lemma stop_events (w : World) (r : MediaRecorder) :
  recorderRef (widget w) = Some r ->
  recordingFlag w = true ->
  In (recorderId r) (recording (browser w)) ->
  let w2 := run [ClickStop; Stopped (recorderId r)] w in
  resultOf w2 =
    Some (newBlob (recordedChunksRef (widget w)) (mimeTypeOrDefault (Some r))) /\
  errorOf w2 = errorOf w /\
  recordingFlag w2 = false /\
  drawIntervalRef (widget w2) = None.
Proof.
  intros Hr Hflag Hin. cbv zeta.
  assert (exists x,
             run [ClickStop; Stopped (recorderId r)] w = commit (onstop x) /\
             widget x = widget (commit w)) as [x [-> Hx]].
  { cbn [run fold_left]. unfold turn. cbn [handle].
    rewrite (clickStop_open w r Hr Hflag Hin).
    match goal with
    | |- context [if ?c then ?a else ?b] => replace (if c then a else b) with a
    end.
    - eexists. split; [reflexivity | reflexivity].
    - cbn. now rewrite Nat.eqb_refl. }
  pose proof (onstop_result x) as Hres.
  destruct (onstop_flags x) as [Hf [He [Hd _]]].
  rewrite Hx in Hres.
  unfold resultOf, errorOf, recordingFlag in *.
  cbn in *. rewrite Hr in Hres. rewrite Hx in He. cbn in He. tauto.
Qed.

(** ** Audio failure *)

Lemma tryCatch_record_error (p : Platform) (s : MediaStream) (w : World) :
  let w' := exec (tryCatch (record p s) catchStart) w in
  match newMediaRecorder p s (selectOptions (isTypeSupported p)), recorderStart p with
  | Throw e, _ => errorOf w' = Some (errorMessage e)
  | Ok _, Some e => errorOf w' = Some (errorMessage e)
  | Ok mime, None => w' = sessionOpened s mime w /\ errorOf w' = errorOf w
  end.
Proof.
  unfold exec, tryCatch. rewrite record_cases.
  destruct (newMediaRecorder p s _); [|reflexivity].
  destruct (recorderStart p); [reflexivity | now split].
Qed.

(** The turn that resumes a suspended start swallows a rejected
    [resume()] and a throwing audio graph alike. *)
Lemma resumed_audio_failure (p : Platform) (videoStream : MediaStream) (w : World) e :
  andThen (audioCall p ResumeAudioContext) (fun _ => buildAudioGraph p videoStream)
    = Throw e ->
  exec (startRecording_resume p videoStream) w =
  exec (tryCatch (record p videoStream) catchStart) w.
Proof.
  unfold startRecording_resume, continueStart, exec, tryCatch.
  destruct (audioCall p ResumeAudioContext); cbn [andThen]; [|reflexivity].
  now intros ->.
Qed.

(** C3.  A start attempt whose audio block throws, at whichever call,
    goes on exactly as a recording of the canvas stream alone: the
    exception reaches no state, an error can only come from the recorder
    itself, and when the recorder is built and started the session opens
    without error on a stream with no audio track and, once stopped,
    yields the blob of its fragments, still without error. *)
Theorem audio_failure_is_swallowed
    (p : Platform) (w : World) video canvas track audioError :
  videoRef (widget w) = Some video -> canvasRef (widget w) = Some canvas ->
  getContext2d p = true -> captureStream p = Ok track ->
  audioOutcome p (canvasStream track) = Throw audioError ->
  let videoStream := canvasStream track in
  let chosen := selectOptions (isTypeSupported p) in
  let w' := startRecording p w in
  w' = exec (tryCatch (record p videoStream) catchStart) (captureStarted video w) /\
  (audioSuspended p = true -> audioCall p NewAudioContext = Ok tt ->
   forall resumedIn,
     exec (startRecording_resume p videoStream) resumedIn =
     exec (tryCatch (record p videoStream) catchStart) resumedIn) /\
  getAudioTracks videoStream = [] /\
  (errorOf w' = None \/
   exists e, (newMediaRecorder p videoStream chosen = Throw e \/ recorderStart p = Some e) /\
             errorOf w' = Some (errorMessage e)) /\
  (forall mime,
     newMediaRecorder p videoStream chosen = Ok mime -> recorderStart p = None ->
     let recorder := {| recorderId := nextRecorder (browser w);
                        stream := videoStream; mimeType := mime |} in
     errorOf w' = None /\ recordingFlag w' = true /\
     recorderRef (widget w') = Some recorder /\
     In (recorderId recorder) (recording (browser w')) /\
     forall fragments,
       let finished := run (sessionEvents (recorderId recorder) fragments) w' in
       resultOf finished =
         Some (newBlob (filter nonEmptyb fragments) (mimeTypeOrDefault (Some recorder))) /\
       errorOf finished = None /\ recordingFlag finished = false).
Proof.
  intros Hv Hc Hctx Hcap Haudio. cbv zeta.
  rewrite (startRecording_records p w video canvas track Hv Hc Hctx Hcap), Haudio.
  cbn [combinedOr].
  pose proof (tryCatch_record_error p (canvasStream track) (captureStarted video w)) as H.
  cbv zeta in H.
  split; [reflexivity |].
  split.
  { intros Hsusp Hnew resumedIn. unfold audioOutcome in Haudio.
    rewrite Hsusp, Hnew in Haudio. cbn [andThen] in Haudio.
    now apply (resumed_audio_failure p (canvasStream track) resumedIn audioError). }
  split; [reflexivity |].
  destruct (newMediaRecorder p (canvasStream track) _) as [mime|e].
  - destruct (recorderStart p) as [e|].
    + split; [right; exists e; split; [now right | assumption] |].
      intros mime' _ Hstart. discriminate.
    + destruct H as [-> Herr]. cbn in Herr.
      split; [now left |].
      intros mime' Hmime _. injection Hmime as <-.
      split; [reflexivity |]. split; [reflexivity |]. split; [reflexivity |].
      split; [now left |].
      intros fragments. unfold sessionEvents. rewrite run_app. cbn [recorderId].
      set (opened := sessionOpened (canvasStream track) mime (captureStarted video w)).
      destruct (data_events (nextRecorder (browser w)) fragments opened)
        as [Hchunks [Hstate [Hrec [_ Hbrowser]]]].
      { apply in_or_app. left. now left. }
      match goal with
      | |- context [run _ (run ?es opened)] => set (delivered := run es opened) in *
      end.
      destruct (stop_events delivered
                  {| recorderId := nextRecorder (browser w);
                     stream := canvasStream track; mimeType := mime |})
        as [Hres [Herr' [Hflag _]]].
      * now rewrite Hrec.
      * unfold recordingFlag. now rewrite Hstate.
      * rewrite Hbrowser. now left.
      * cbn [recorderId] in *. rewrite Hres, Herr', Hflag, Hchunks.
        unfold errorOf. rewrite Hstate. repeat split.
  - split; [right; exists e; split; [now left | assumption] |].
    intros mime Hmime. discriminate.
Qed.

Lemma audio_failure_is_swallowed_witness :
  audioOutcome audioBlockedBrowser (canvasStream 7) =
    Throw (ErrorObject "InvalidStateError") /\
  errorOf (startRecording audioBlockedBrowser loadedWorld) = None /\
  recordingFlag (startRecording audioBlockedBrowser loadedWorld) = true /\
  resultOf (run (sessionEvents 1 [sampleFragment; emptyFragment])
              (startRecording audioBlockedBrowser loadedWorld)) =
    Some (newBlob [sampleFragment] "video/webm").
Proof.
  split; [reflexivity |].
  destruct (audio_failure_is_swallowed audioBlockedBrowser loadedWorld
              {| videoWidth := 640; videoHeight := 360 |}
              {| width := 300; height := 150 |} 7
              (ErrorObject "InvalidStateError")
              eq_refl eq_refl eq_refl eq_refl eq_refl) as [_ [_ [_ [_ H]]]].
  destruct (H "video/webm"%string eq_refl eq_refl) as [He [Hf [_ [_ Hdone]]]].
  split; [exact He |]. split; [exact Hf |].
  exact (proj1 (Hdone [sampleFragment; emptyFragment])).
Defined.

(** ** What a start attempt leaves alone *)

Lemma startFrame_refl (w : World) : startFrame w w.
Proof. unfold startFrame. auto. Qed.

Lemma startFrame_trans (w1 w2 w3 : World) :
  startFrame w1 w2 -> startFrame w2 w3 -> startFrame w1 w3.
Proof.
  unfold startFrame. intros [Hr [Hl [Hu Hc]]] [Hr' [Hl' [Hu' Hc']]].
  rewrite Hr', Hl', Hu'. repeat split; try assumption.
  destruct Hc' as [-> | ->]; auto.
Qed.

Lemma beginCapture_frame (p : Platform) (w : World) :
  startFrame w (snd (beginCapture p w)).
Proof.
  unfold beginCapture, bind, gets, modify, throw, ret, lift, setInterval, startFrame,
    resultOf.
  cbn. destruct (videoRef (widget w)); [|cbn; auto].
  destruct (canvasRef (widget w)); [|cbn; auto].
  cbn. destruct (getContext2d p); cbn; [|auto].
  destruct (captureStream p); cbn; auto.
Qed.

Lemma catchStart_frame (e : Thrown) (w : World) :
  startFrame w (snd (catchStart e w)).
Proof. unfold startFrame, resultOf. cbn. auto. Qed.

Lemma record_frame (p : Platform) (s : MediaStream) (w : World) :
  startFrame w (snd (record p s w)) /\
  recordedChunksRef (widget (snd (record p s w))) = [].
Proof.
  rewrite record_cases. unfold startFrame, resultOf.
  destruct (newMediaRecorder p s _); [destruct (recorderStart p)|]; cbn;
    repeat split; auto.
Qed.

Lemma recordCaught_frame (p : Platform) (s : MediaStream) (w : World) :
  startFrame w (exec (tryCatch (record p s) catchStart) w) /\
  recordedChunksRef (widget (exec (tryCatch (record p s) catchStart) w)) = [].
Proof.
  unfold exec, tryCatch. destruct (record_frame p s w) as [Hf Hc].
  destruct (record p s w) as [[[]|e] w1]; cbn [snd] in *.
  - now split.
  - split.
    + eapply startFrame_trans; [exact Hf | apply catchStart_frame].
    + cbn. exact Hc.
Qed.

Lemma startRecording_resume_frame (p : Platform) (s : MediaStream) (w : World) :
  startFrame w (exec (startRecording_resume p s) w) /\
  recordedChunksRef (widget (exec (startRecording_resume p s) w)) = [].
Proof.
  unfold startRecording_resume, continueStart.
  destruct (audioCall p ResumeAudioContext); apply recordCaught_frame.
Qed.

Lemma startRecording_begin_frame (p : Platform) (w : World) :
  startFrame w (snd (startRecording_begin p w)).
Proof.
  unfold startRecording_begin, continueStart, tryCatch, bind, ret.
  pose proof (beginCapture_frame p w) as Hb.
  destruct (beginCapture p w) as [[[videoStream|]|e] w1]; cbn [snd] in *.
  - destruct (audioCall p NewAudioContext); [destruct (audioSuspended p)|].
    + exact Hb.
    + pose proof (recordCaught_frame p
                    (combinedOr (buildAudioGraph p videoStream) videoStream) w1) as [Hr _].
      unfold exec, tryCatch, combinedOr in Hr.
      case_record; cbn [snd] in *; eapply startFrame_trans; eauto.
    + pose proof (recordCaught_frame p videoStream w1) as [Hr _].
      unfold exec, tryCatch in Hr.
      case_record; cbn [snd] in *; eapply startFrame_trans; eauto.
  - exact Hb.
  - eapply startFrame_trans; [exact Hb | apply catchStart_frame].
Qed.

Lemma clickStart_frame (p : Platform) (w : World) :
  startFrame w (clickStart p w).
Proof.
  unfold clickStart. destruct (startDisabled (widget w)); [apply startFrame_refl |].
  pose proof (startRecording_begin_frame p w) as H.
  destruct (startRecording_begin p w) as [[[|videoStream]|e] w1]; cbn [snd] in *;
    exact H.
Qed.

(** ** The fragment list *)

Lemma nonEmptyb_true (fragment : Blob) :
  nonEmptyb fragment = true <-> nonEmpty fragment.
Proof. unfold nonEmptyb, nonEmpty. apply Nat.ltb_lt. Qed.

Lemma ondataavailable_appends (data : Blob) (w : World) :
  recordedChunksRef (widget (ondataavailable data w)) =
  recordedChunksRef (widget w) ++ (if nonEmptyb data then [data] else []) /\
  resultOf (ondataavailable data w) = resultOf w.
Proof.
  unfold ondataavailable. fold (nonEmptyb data).
  destruct (nonEmptyb data); cbn; now rewrite ?app_nil_r.
Qed.

Lemma startFrame_invariant (w w' : World) :
  startFrame w w' -> fragmentsInvariant w -> fragmentsInvariant w'.
Proof.
  unfold startFrame, fragmentsInvariant. intros [_ [_ [_ Hc]]] Hchunks.
  destruct Hc as [-> | ->]; [assumption | constructor].
Qed.

Lemma fragmentsInvariant_widget (w w' : World) :
  recordedChunksRef (widget w') = recordedChunksRef (widget w) ->
  fragmentsInvariant w -> fragmentsInvariant w'.
Proof. unfold fragmentsInvariant. now intros ->. Qed.

Lemma handle_invariant (e : Event) (w : World) :
  fragmentsInvariant w -> fragmentsInvariant (handle e w).
Proof.
  intros Hinv. destruct e; cbn [handle].
  - now apply (fragmentsInvariant_widget w).
  - now apply (fragmentsInvariant_widget w).
  - destruct (videoRef (widget w)); [|assumption].
    now apply (fragmentsInvariant_widget w).
  - destruct (videoRef (widget w)); [|assumption].
    now apply (fragmentsInvariant_widget w).
  - eapply startFrame_invariant; [apply clickStart_frame | assumption].
  - destruct (nth_error (awaiting (browser w)) n) as [videoStream|]; [|assumption].
    eapply startFrame_invariant; [apply startRecording_resume_frame |].
    now apply (fragmentsInvariant_widget w).
  - unfold clickStop, stopRecording, recorder_stop.
    destruct (stopDisabled (widget w)); [assumption |].
    destruct (recorderRef (widget w)); [|assumption].
    destruct (isRecording _); [|assumption].
    destruct (existsb _ _); [|assumption].
    now apply (fragmentsInvariant_widget w).
  - destruct (existsb _ _); [|assumption].
    destruct (ondataavailable_appends data w) as [Hc _].
    unfold fragmentsInvariant in *. rewrite Hc.
    apply Forall_app. split; [assumption |].
    destruct (nonEmptyb data) eqn:Hd; constructor; [|constructor].
    now apply nonEmptyb_true.
  - destruct (existsb _ _); [|assumption].
    match goal with |- fragmentsInvariant (onstop ?x) => set (stopped := x) end.
    destruct (onstop_flags stopped) as [_ [_ [_ [_ Hc]]]].
    unfold fragmentsInvariant in *. now rewrite Hc.
  - unfold clickDownload, downloadRecording.
    destruct (downloadDisabled (widget w)); [assumption |].
    destruct (recordedBlob _) eqn:Hb; [|assumption].
    now apply (fragmentsInvariant_widget w).
Qed.

Lemma run_invariant (P : World -> Prop) :
  (forall e w, P w -> P (turn w e)) ->
  forall es w, P w -> P (run es w).
Proof.
  intros Hturn es. induction es as [|e es IH]; intros w Hw; [exact Hw |].
  cbn [run fold_left]. apply IH. now apply Hturn.
Qed.

Lemma fragments_reachable (es : list Event) :
  fragmentsInvariant (run es initialWorld).
Proof.
  apply run_invariant.
  - intros e w Hw. unfold turn.
    apply (fragmentsInvariant_widget (handle e w)); [reflexivity |].
    now apply handle_invariant.
  - apply Forall_nil.
Qed.

(** *** Where a result comes from *)

Lemma run_snoc (es : list Event) (e : Event) (w : World) :
  run (es ++ [e]) w = turn (run es w) e.
Proof. now rewrite run_app. Qed.

(** The commit writes the two element refs and nothing else. *)
Lemma commit_result (w : World) : resultOf (commit w) = resultOf w.
Proof. reflexivity. Qed.

Lemma commit_browser (w : World) : browser (commit w) = browser w.
Proof. reflexivity. Qed.

Lemma startRecording_resume_result (p : Platform) (s : MediaStream) (w : World) :
  resultOf (exec (startRecording_resume p s) w) = resultOf w.
Proof. now destruct (startRecording_resume_frame p s w) as [[H _] _]. Qed.

Lemma handle_keeps_result (e : Event) (w : World) :
  notStopEvent e = true -> resultOf (handle e w) = resultOf w.
Proof.
  intros He.
  destruct e; cbn [handle]; try discriminate He; try reflexivity.
  - now destruct (videoRef (widget w)).
  - now destruct (videoRef (widget w)).
  - now destruct (clickStart_frame p w) as [H _].
  - destruct (nth_error (awaiting (browser w)) n); [|reflexivity].
    now rewrite startRecording_resume_result.
  - unfold clickStop, stopRecording, recorder_stop.
    destruct (stopDisabled (widget w)); [reflexivity |].
    destruct (recorderRef (widget w)); [|reflexivity].
    destruct (isRecording _); [|reflexivity].
    now destruct (existsb _ _).
  - destruct (existsb _ _); [|reflexivity].
    now destruct (ondataavailable_appends data w).
  - unfold clickDownload, downloadRecording.
    destruct (downloadDisabled (widget w)); [reflexivity |].
    now destruct (recordedBlob _).
Qed.

(** A [stop] event of a recorder that was stopped runs the stop handler,
    which makes the result of the fragment list as it is then. *)
Lemma stopped_turn_result (id : nat) (w : World) :
  existsb (Nat.eqb id) (stopping (browser w)) = true ->
  resultOf (turn w (Stopped id)) = Some (finalBlob w).
Proof.
  intros Hid. unfold turn. cbn [handle]. rewrite Hid.
  now rewrite commit_result, onstop_result.
Qed.

(** A [stop] event of any other recorder reaches no handler. *)
Lemma stray_stop_event (id : nat) (w : World) :
  existsb (Nat.eqb id) (stopping (browser w)) = false ->
  handle (Stopped id) w = w.
Proof. intros Hid. cbn [handle]. now rewrite Hid. Qed.

(** Every result the widget ever holds was made by the stop handler at
    a [stop] event of the trace. *)
Lemma result_origin (es : list Event) (blob : Blob) :
  resultOf (run es initialWorld) = Some blob ->
  exists before id after,
    es = before ++ Stopped id :: after /\
    existsb (Nat.eqb id) (stopping (browser (run before initialWorld))) = true /\
    blob = finalBlob (run before initialWorld).
Proof.
  induction es as [|e es IH] using rev_ind; [discriminate |].
  rewrite run_snoc. intros Hb.
  assert (Hold : resultOf (run es initialWorld) = Some blob ->
                 exists before id after,
                   es ++ [e] = before ++ Stopped id :: after /\
                   existsb (Nat.eqb id) (stopping (browser (run before initialWorld))) = true /\
                   blob = finalBlob (run before initialWorld)).
  { intros H. destruct (IH H) as [before [id [after [-> [Hid Hblob]]]]].
    exists before, id, (after ++ [e]).
    split; [now rewrite <- app_assoc | now split]. }
  destruct (notStopEvent e) eqn:He.
  - apply Hold. rewrite <- Hb. unfold turn. rewrite commit_result.
    symmetry. now apply handle_keeps_result.
  - destruct e; try discriminate He.
    destruct (existsb (Nat.eqb id) (stopping (browser (run es initialWorld)))) eqn:Hid.
    + rewrite (stopped_turn_result id _ Hid) in Hb. injection Hb as <-.
      exists es, id, []. now repeat split.
    + apply Hold. rewrite <- Hb. unfold turn.
      now rewrite (stray_stop_event id _ Hid).
Qed.

(** C10.  Only fragments of size greater than zero enter the fragment
    list: the data handler appends a fragment exactly when its size is
    positive, so in every state the widget can reach all fragments held
    are non-empty.  The final blob is made of that list: at every stop
    event that runs the stop handler the result becomes the blob of the
    fragment list held at that moment, its bytes the concatenation of
    those fragments, each of them non-empty; and every result the widget
    holds in any reachable state was made that way at a stop event of
    the trace. *)
Theorem fragments_are_non_empty :
  (forall data w,
     recordedChunksRef (widget (ondataavailable data w)) =
     recordedChunksRef (widget w) ++ (if (0 <? size data)%nat then [data] else [])) /\
  (forall es, Forall (fun fragment => 0 < size fragment)
                     (recordedChunksRef (widget (run es initialWorld)))) /\
  (forall es id,
     let w := run es initialWorld in
     let fragments := recordedChunksRef (widget w) in
     existsb (Nat.eqb id) (stopping (browser w)) = true ->
     resultOf (turn w (Stopped id)) =
       Some (newBlob fragments (mimeTypeOrDefault (recorderRef (widget w)))) /\
     blobData (newBlob fragments (mimeTypeOrDefault (recorderRef (widget w)))) =
       concat (map blobData fragments) /\
     Forall (fun fragment => 0 < size fragment) fragments) /\
  (forall es blob,
     resultOf (run es initialWorld) = Some blob ->
     exists before id after,
       let w := run before initialWorld in
       let fragments := recordedChunksRef (widget w) in
       es = before ++ Stopped id :: after /\
       existsb (Nat.eqb id) (stopping (browser w)) = true /\
       blob = newBlob fragments (mimeTypeOrDefault (recorderRef (widget w))) /\
       blobData blob = concat (map blobData fragments) /\
       Forall (fun fragment => 0 < size fragment) fragments).
Proof.
  split; [intros data w; apply ondataavailable_appends |].
  split; [exact fragments_reachable |].
  split.
  - intros es id w fragments Hid.
    split; [exact (stopped_turn_result id w Hid) |].
    split; [reflexivity | apply fragments_reachable].
  - intros es blob Hb.
    destruct (result_origin es blob Hb) as [before [id [after [Hes [Hid Hblob]]]]].
    exists before, id, after. cbv zeta.
    split; [exact Hes |]. split; [exact Hid |]. split; [exact Hblob |].
    split; [now rewrite Hblob | apply fragments_reachable].
Qed.

(** At the first recording of a freshly loaded widget, with an empty
    fragment delivered before the real one. *)
Lemma fragments_are_non_empty_witness :
  resultOf (turn (run [ChangeUrl sampleUrl; LoadedData 640 360; ClickStart webmBrowser;
                       DataAvailable 1 emptyFragment; DataAvailable 1 sampleFragment;
                       ClickStop] initialWorld)
                 (Stopped 1)) =
  Some (newBlob [sampleFragment] "video/webm").
Proof.
  destruct (proj1 (proj2 (proj2 fragments_are_non_empty))
              [ChangeUrl sampleUrl; LoadedData 640 360; ClickStart webmBrowser;
               DataAvailable 1 emptyFragment; DataAvailable 1 sampleFragment; ClickStop]
              1 eq_refl) as [H _].
  rewrite H. reflexivity.
Defined.

(** ** The Start control and the loaded flag *)

(** A press on the disabled Start button reaches no handler. *)
Lemma clickStart_disabled (p : Platform) (w : World) :
  isVideoLoaded (widget w) = false \/ recordingFlag w = true ->
  clickStart p w = w.
Proof.
  unfold clickStart, startDisabled, recordingFlag.
  intros [-> | ->]; [reflexivity |].
  now rewrite orb_true_r.
Qed.

Lemma handle_keeps_unloaded (e : Event) (w : World) :
  notLoadSignal e = true ->
  isVideoLoaded (widget w) = false ->
  isVideoLoaded (widget (turn w e)) = false.
Proof.
  intros He Hw. unfold turn.
  change (isVideoLoaded (widget (commit (handle e w))))
    with (isVideoLoaded (widget (handle e w))).
  destruct e; cbn [handle].
  - exact Hw.
  - reflexivity.
  - discriminate He.
  - now destruct (videoRef (widget w)).
  - now rewrite clickStart_disabled by now left.
  - destruct (nth_error (awaiting (browser w)) n) as [videoStream|]; [|assumption].
    now destruct (startRecording_resume_frame p videoStream
                    (onBrowser (fun b => set_awaiting (removeNth n (awaiting b)) b) w))
      as [[_ [-> _]] _].
  - unfold clickStop, stopRecording, recorder_stop.
    destruct (stopDisabled (widget w)); [assumption |].
    destruct (recorderRef (widget w)); [|assumption].
    destruct (isRecording _); [|assumption].
    now destruct (existsb _ _).
  - destruct (existsb _ _); [|assumption].
    unfold ondataavailable. now destruct (_ <? _)%nat.
  - destruct (existsb _ _); [|assumption].
    unfold onstop. cbn.
    destruct (drawIntervalRef (widget w)); cbn;
      now destruct (recordedVideoRef (widget w)).
  - unfold clickDownload, downloadRecording.
    destruct (downloadDisabled (widget w)); [assumption |].
    now destruct (recordedBlob _).
Qed.

Lemma run_keeps_unloaded (es : list Event) (w : World) :
  forallb notLoadSignal es = true ->
  isVideoLoaded (widget w) = false ->
  isVideoLoaded (widget (run es w)) = false.
Proof.
  revert w. induction es as [|e es IH]; intros w Hes Hw; [exact Hw |].
  cbn [forallb] in Hes. apply andb_prop in Hes as [He Hes].
  cbn [run fold_left]. apply IH; [assumption |].
  now apply handle_keeps_unloaded.
Qed.

(** C9, as the code has it.  The loaded flag is reset by the Load Video
    button: after a press it is false and stays false, every Start press
    being without effect, until the source element signals that it has
    loaded.  Editing the URL field alone leaves the flag as it was. *)
Theorem load_video_resets_loaded_flag (w : World) (es : list Event) :
  forallb notLoadSignal es = true ->
  let w' := run es (turn w ClickLoadVideo) in
  isVideoLoaded (widget (turn w ClickLoadVideo)) = false /\
  isVideoLoaded (widget w') = false /\
  (forall p, clickStart p w' = w') /\
  (forall vw vh, videoRef (widget w') <> None ->
     isVideoLoaded (widget (turn w' (LoadedData vw vh))) = true) /\
  (forall value,
     isVideoLoaded (widget (turn w (ChangeUrl value))) = isVideoLoaded (widget w)).
Proof.
  intros Hes. cbv zeta.
  assert (Hreset : isVideoLoaded (widget (turn w ClickLoadVideo)) = false) by reflexivity.
  pose proof (run_keeps_unloaded es _ Hes Hreset) as Hkept.
  split; [exact Hreset |]. split; [exact Hkept |].
  split; [intros p; apply clickStart_disabled; now left |].
  split; [|reflexivity].
  intros vw vh Hmounted. unfold turn. cbn [handle].
  now destruct (videoRef (widget (run es _))).
Qed.

Lemma load_video_resets_loaded_flag_witness :
  isVideoLoaded
    (widget (run [ChangeUrl otherUrl; ClickStart webmBrowser]
               (turn loadedWorld ClickLoadVideo))) = false.
Proof.
  exact (proj1 (proj2 (load_video_resets_loaded_flag loadedWorld
                         [ChangeUrl otherUrl; ClickStart webmBrowser] eq_refl))).
Defined.

(** C9 as stated fails: with a loaded source, editing the URL leaves
    the flag set and Start enabled, and a press starts a recording
    although the element has signalled nothing for the new URL. *)
Lemma url_change_keeps_loaded_flag :
  let w := turn loadedWorld (ChangeUrl otherUrl) in
  videoUrl (widget w) = otherUrl /\
  isVideoLoaded (widget w) = true /\
  startDisabled (widget w) = false /\
  recordingFlag (turn w (ClickStart webmBrowser)) = true.
Proof. cbv zeta. repeat split. Qed.

(** ** The error field across a start attempt *)

(** Line 34: without the source element or the drawing surface the
    routine returns before it has written anything. *)
Lemma startRecording_without_elements (p : Platform) (w : World) :
  videoRef (widget w) = None \/ canvasRef (widget w) = None ->
  startRecording p w = w /\ snd (startRecording_begin p w) = w.
Proof.
  intros H. unfold startRecording, startRecording_begin, tryCatch, bind, ret.
  now rewrite (beginCapture_returns p w H).
Qed.

Lemma startRecording_no_context (p : Platform) (w : World) video canvas :
  videoRef (widget w) = Some video -> canvasRef (widget w) = Some canvas ->
  getContext2d p = false ->
  startRecording p w =
  setRecordingState (set_error (Some "Canvas context not available"%string)) w.
Proof.
  intros Hv Hc Hctx.
  unfold startRecording, startRecording_begin, tryCatch, bind.
  now rewrite (beginCapture_no_context p w video canvas Hv Hc Hctx).
Qed.

Lemma startRecording_capture_fails (p : Platform) (w : World) video canvas e :
  videoRef (widget w) = Some video -> canvasRef (widget w) = Some canvas ->
  getContext2d p = true -> captureStream p = Throw e ->
  startRecording p w =
  setRecordingState (set_error (Some (errorMessage e))) (captureStarted video w).
Proof.
  intros Hv Hc Hctx Hcap.
  unfold startRecording, startRecording_begin, tryCatch, bind.
  now rewrite (beginCapture_stream p w video canvas Hv Hc Hctx), Hcap.
Qed.

Lemma beginCapture_clears_first (p : Platform) (w : World) video canvas :
  videoRef (widget w) = Some video -> canvasRef (widget w) = Some canvas ->
  beginCapture p (setRecordingState (set_error None) w) = beginCapture p w.
Proof.
  intros Hv Hc.
  destruct (getContext2d p) eqn:Hctx.
  - now rewrite (beginCapture_stream p w video canvas Hv Hc Hctx),
      (beginCapture_stream p (setRecordingState (set_error None) w) video canvas Hv Hc Hctx).
  - now rewrite (beginCapture_no_context p w video canvas Hv Hc Hctx),
      (beginCapture_no_context p (setRecordingState (set_error None) w)
         video canvas Hv Hc Hctx).
Qed.

(** C8, as the code has it.  A start attempt that finds the source
    element and the drawing surface in place clears the stored error
    before any step that can fail: the attempt runs as it would from a
    state without error, the turn that begins it ends with the error
    empty or replaced by this attempt's exception, and so does the
    attempt as a whole. *)
Theorem start_clears_previous_error (p : Platform) (w : World) video canvas :
  videoRef (widget w) = Some video -> canvasRef (widget w) = Some canvas ->
  let cleared := setRecordingState (set_error None) w in
  errorOf cleared = None /\
  startRecording_begin p w = startRecording_begin p cleared /\
  startRecording p w = startRecording p cleared /\
  (errorOf (snd (startRecording_begin p w)) = None \/
   exists e, thrownByStart p e /\
             errorOf (snd (startRecording_begin p w)) = Some (errorMessage e)) /\
  (errorOf (startRecording p w) = None \/
   exists e, thrownByStart p e /\
             errorOf (startRecording p w) = Some (errorMessage e)).
Proof.
  intros Hv Hc. cbv zeta.
  assert (Hbegin : startRecording_begin p w =
                   startRecording_begin p (setRecordingState (set_error None) w)).
  { unfold startRecording_begin, tryCatch, bind.
    now rewrite (beginCapture_clears_first p w video canvas Hv Hc). }
  split; [reflexivity |]. split; [exact Hbegin |].
  split; [unfold startRecording; now rewrite Hbegin |].
  destruct (getContext2d p) eqn:Hctx.
  - destruct (captureStream p) as [track|e] eqn:Hcap.
    + split.
      * unfold startRecording_begin, continueStart, tryCatch, bind, ret.
        rewrite (beginCapture_stream p w video canvas Hv Hc Hctx), Hcap.
        assert (Hrec : forall s,
                  let w' := exec (tryCatch (record p s) catchStart) (captureStarted video w) in
                  errorOf w' = None \/
                  exists e, thrownByStart p e /\ errorOf w' = Some (errorMessage e)).
        { intros s. pose proof (tryCatch_record_error p s (captureStarted video w)) as H.
          cbv zeta in *.
          destruct (newMediaRecorder p s _) as [mime|e] eqn:Hnew.
          - destruct (recorderStart p) as [e|] eqn:Hstart.
            + right. exists e. split; [|exact H]. right. right. now right.
            + left. destruct H as [_ ->]. reflexivity.
          - right. exists e. split; [|exact H]. right. right. left. now exists s. }
        destruct (audioCall p NewAudioContext); [destruct (audioSuspended p)|].
        -- now left.
        -- specialize (Hrec (combinedOr (buildAudioGraph p (canvasStream track))
                                        (canvasStream track))).
           unfold exec, tryCatch, combinedOr in Hrec. cbv zeta in Hrec.
           now case_record.
        -- specialize (Hrec (canvasStream track)).
           unfold exec, tryCatch in Hrec. cbv zeta in Hrec.
           now case_record.
      * rewrite (startRecording_records p w video canvas track Hv Hc Hctx Hcap).
        pose proof (tryCatch_record_error p
                      (combinedOr (audioOutcome p (canvasStream track)) (canvasStream track))
                      (captureStarted video w)) as H.
        cbv zeta in H.
        destruct (newMediaRecorder p _ _) as [mime|e] eqn:Hnew.
        -- destruct (recorderStart p) as [e|] eqn:Hstart.
           ++ right. exists e. split; [|exact H]. right. right. now right.
           ++ left. destruct H as [_ ->]. reflexivity.
        -- right. exists e. split; [|exact H]. right. right. left. eauto.
    + assert (Hthrown : thrownByStart p e) by (right; now left).
      split; right; exists e; (split; [exact Hthrown |]).
      * unfold startRecording_begin, tryCatch, bind.
        now rewrite (beginCapture_stream p w video canvas Hv Hc Hctx), Hcap.
      * now rewrite (startRecording_capture_fails p w video canvas e Hv Hc Hctx Hcap).
  - assert (Hthrown : thrownByStart p (ErrorObject "Canvas context not available"))
      by (left; now split).
    split; right; exists (ErrorObject "Canvas context not available");
      (split; [exact Hthrown |]).
    + unfold startRecording_begin, tryCatch, bind.
      now rewrite (beginCapture_no_context p w video canvas Hv Hc Hctx).
    + now rewrite (startRecording_no_context p w video canvas Hv Hc Hctx).
Qed.

Lemma start_clears_previous_error_witness :
  errorOf (startRecording webmBrowser
             (setRecordingState (set_error (Some "Failed to load video. Please check the URL."%string))
                loadedWorld)) = None.
Proof.
  destruct (start_clears_previous_error webmBrowser
              (setRecordingState
                 (set_error (Some "Failed to load video. Please check the URL."%string))
                 loadedWorld)
              {| videoWidth := 640; videoHeight := 360 |}
              {| width := 300; height := 150 |} eq_refl eq_refl)
    as [_ [_ [-> _]]].
  reflexivity.
Defined.

(** C8 as stated fails: when the source element is gone the routine
    returns at its guard, before the reset, and the stored error
    survives the press on the enabled Start button. *)
Lemma start_without_source_keeps_error :
  errorOf erroredWithoutSource = Some "NotSupportedError"%string /\
  videoRef (widget erroredWithoutSource) = None /\
  startDisabled (widget erroredWithoutSource) = false /\
  errorOf (startRecording webmBrowser erroredWithoutSource) =
    Some "NotSupportedError"%string /\
  errorOf (turn erroredWithoutSource (ClickStart webmBrowser)) =
    Some "NotSupportedError"%string.
Proof. repeat split. Qed.

(** ** The stop handler *)

(** The stop handler in any state.  It cancels the timer held in
    [drawIntervalRef] (doing nothing when none is held, so a second run
    cancels nothing more), makes one blob of the fragment list in order,
    tagged with the MIME type the recorder reports (with "video/webm"
    when it reports none), stores it as the result, which enables the
    download of that very blob, and sets isRecording to false.  The
    blob reaches the playback element only if that element is in the
    tree while the handler runs. *)
Lemma stop_handler_finalizes (w : World) :
  let fragments := recordedChunksRef (widget w) in
  let blob := newBlob fragments (mimeTypeOrDefault (recorderRef (widget w))) in
  let w' := onstop w in
  (drawIntervalRef (widget w') = None /\
   (forall id, drawIntervalRef (widget w) = Some id -> ~ In id (timers (browser w'))) /\
   (drawIntervalRef (widget w) = None -> timers (browser w') = timers (browser w)) /\
   timers (browser (onstop w')) = timers (browser w')) /\
  (resultOf w' = Some blob /\
   blobData blob = concat (map blobData fragments) /\
   (forall recorder, recorderRef (widget w) = Some recorder ->
      mimeType recorder <> EmptyString -> blobType blob = mimeType recorder)) /\
  exposedForDownload w' blob /\
  (forall element, recordedVideoRef (widget w) = Some element ->
     exposedForPlayback w' blob) /\
  recordingFlag w' = false.
Proof.
  cbv zeta.
  destruct (onstop_flags w) as [Hflag [_ [Hd _]]].
  pose proof (onstop_result w) as Hres.
  split; [|split; [|split; [|split]]].
  - split; [exact Hd |]. split; [|split].
    + intros id Hid. rewrite onstop_timers, Hid. apply remove_In.
    + intros Hnone. now rewrite onstop_timers, Hnone.
    + now rewrite (onstop_timers (onstop w)), Hd.
  - split; [exact Hres |]. split; [reflexivity |].
    intros recorder Hr Hmime. rewrite Hr. cbn.
    now destruct (mimeType recorder).
  - unfold exposedForDownload, clickDownload, downloadDisabled, downloadRecording.
    unfold resultOf in Hres. rewrite Hres. split; [reflexivity |].
    intros now. eexists. reflexivity.
  - intros element Hel. unfold exposedForPlayback.
    rewrite onstop_playback, Hel. eexists. split; reflexivity.
  - exact Hflag.
Qed.

Lemma result_is_downloadable (w : World) (blob : Blob) :
  resultOf w = Some blob -> exposedForDownload w blob.
Proof.
  unfold resultOf. intros Hres.
  unfold exposedForDownload, clickDownload, downloadDisabled, downloadRecording.
  rewrite Hres. split; [reflexivity |]. intros now. eexists. reflexivity.
Qed.

(** C4 at the first recording of a freshly loaded widget.  When
    recorder 1 reports stop, the handler cancels the frame timer, stores
    the blob of the fragment list, which can be downloaded, and sets
    isRecording to false; but the blob is not exposed for playback.
    While no result exists the playback element is not in the tree
    (line 295), so the binding of lines 126-130 finds no element, and
    the element mounted by the following render has no source, and
    still has none after a download, a new URL and its load signal.
    The second recording shows what the handler is meant to do: its
    result is bound to the playback element. *)
Theorem first_result_not_bound_for_playback :
  let w := turn firstSessionStopping (Stopped 1) in
  let secondResult := newBlob [sampleFragment; sampleFragment] "video/webm" in
  resultOf firstSessionStopping = None /\
  recordedVideoRef (widget firstSessionStopping) = None /\
  resultOf w = Some firstResult /\
  recordedVideoRef (widget w) = Some {| src := None |} /\
  ~ exposedForPlayback w firstResult /\
  exposedForDownload w firstResult /\
  recordingFlag w = false /\
  drawIntervalRef (widget w) = None /\
  timers (browser w) = [] /\
  ~ exposedForPlayback
      (run [ClickDownload 1700000000000; ChangeUrl otherUrl; LoadedData 320 240] w)
      firstResult /\
  exposedForPlayback
    (run (ClickStart webmBrowser :: sessionEvents 2 [sampleFragment; sampleFragment]) w)
    secondResult.
Proof.
  cbv zeta.
  assert (Hunbound : forall es,
            recordedVideoRef (widget (run es (turn firstSessionStopping (Stopped 1)))) =
              Some {| src := None |} ->
            ~ exposedForPlayback (run es (turn firstSessionStopping (Stopped 1))) firstResult).
  { intros es Href [element [Hel Hsrc]]. rewrite Href in Hel.
    injection Hel as <-. discriminate Hsrc. }
  assert (Hres : resultOf (turn firstSessionStopping (Stopped 1)) = Some firstResult)
    by (vm_compute; reflexivity).
  split; [vm_compute; reflexivity |]. split; [vm_compute; reflexivity |].
  split; [exact Hres |].
  split; [vm_compute; reflexivity |].
  split; [apply (Hunbound []); vm_compute; reflexivity |].
  split; [exact (result_is_downloadable _ _ Hres) |].
  split; [vm_compute; reflexivity |]. split; [vm_compute; reflexivity |].
  split; [vm_compute; reflexivity |].
  split; [apply Hunbound; vm_compute; reflexivity |].
  exists {| src := Some (newBlob [sampleFragment; sampleFragment] "video/webm") |}.
  split; [vm_compute; reflexivity | reflexivity].
Qed.

(** ** A start that fails after the timer was set *)

Lemma cleanup_cancels_held_timer (w : World) (id : nat) :
  drawIntervalRef (widget w) = Some id -> ~ In id (timers (browser (cleanup w))).
Proof.
  intros Hid. unfold cleanup, recorder_stop. rewrite Hid.
  destruct (recorderRef (widget (clearInterval id w))) as [recorder|];
    [destruct (existsb _ _)|]; cbn; apply remove_In.
Qed.

(** C1 at a browser without encoder: the constructor throws after the
    frame timer was started.  The error is reported and nothing records,
    but timer 1 keeps running with no session open, and it still runs
    after a later session has come and gone, whose stop handler cancels
    only its own timer 2; the unmount cleanup then finds no timer to
    cancel either. *)
Theorem failed_start_leaves_timer_running :
  let w := turn loadedWorld (ClickStart noEncoderBrowser) in
  errorOf w = Some "NotSupportedError"%string /\
  recordingFlag w = false /\
  activeSessions w = 0 /\
  drawIntervalRef (widget w) = Some 1 /\
  timers (browser w) = [1] /\
  recordingFlag failedThenRecorded = false /\
  activeSessions failedThenRecorded = 0 /\
  drawIntervalRef (widget failedThenRecorded) = None /\
  timers (browser failedThenRecorded) = [1] /\
  timers (browser (cleanup failedThenRecorded)) = [1].
Proof. cbv zeta. repeat split. Qed.

(** ** Two starts in flight *)

(** C6 at two presses on Start while the first attempt is suspended at
    [await audioCtx.resume()]: isRecording is still false at the second
    press, the button is enabled, and both attempts go on to start a
    recorder. *)
Theorem double_start_opens_two_sessions :
  let pressed := turn loadedWorld (ClickStart suspendedAudioBrowser) in
  let w := run doubleStart loadedWorld in
  recordingFlag pressed = false /\
  startDisabled (widget pressed) = false /\
  activeSessions w = 2 /\
  recording (browser w) = [2; 1] /\
  timers (browser w) = [2; 1].
Proof. cbv zeta. repeat split. Qed.

(** ** Sessions when no start attempt is left waiting

    The disabled Start button does keep the sessions apart as long as
    each start attempt runs through within its own turn. *)

Lemma beginCapture_sessions (p : Platform) (w : World) :
  sessionStep w (snd (beginCapture p w)).
Proof.
  unfold beginCapture, bind, gets, modify, throw, ret, lift, setInterval, sessionStep,
    recordingFlag.
  cbn. destruct (videoRef (widget w)); [|cbn; auto].
  destruct (canvasRef (widget w)); [|cbn; auto].
  cbn. destruct (getContext2d p); cbn; [|auto].
  destruct (captureStream p); cbn; auto.
Qed.

Lemma recordCaught_sessions (p : Platform) (s : MediaStream) (w : World) :
  sessionStep w (exec (tryCatch (record p s) catchStart) w).
Proof.
  unfold exec, tryCatch, sessionStep, recordingFlag. rewrite record_cases.
  destruct (newMediaRecorder p s _); [destruct (recorderStart p)|]; cbn; eauto 6.
Qed.

Lemma sessionStep_after_same (w1 w2 w3 : World) :
  sessionStep w1 w2 ->
  recording (browser w2) = recording (browser w1) ->
  recordingFlag w2 = recordingFlag w1 ->
  sessionStep w2 w3 -> sessionStep w1 w3.
Proof.
  unfold sessionStep. intros [Hs [Ha _]] Hr Hf [Hs' [Ha' H]].
  rewrite <- Hs, <- Ha, <- Hr, <- Hf. auto.
Qed.

Lemma clickStart_runs_through (p : Platform) (w : World) :
  audioSuspended p = false -> sessionStep w (clickStart p w).
Proof.
  intros Hrun. unfold clickStart.
  destruct (startDisabled (widget w)); [unfold sessionStep; auto |].
  unfold startRecording_begin, continueStart, tryCatch, bind, ret. rewrite Hrun.
  pose proof (beginCapture_sessions p w) as Hb.
  assert (Hsame : recording (browser (snd (beginCapture p w))) = recording (browser w) /\
                  recordingFlag (snd (beginCapture p w)) = recordingFlag w).
  { unfold beginCapture, bind, gets, modify, throw, ret, lift, setInterval, recordingFlag.
    cbn. destruct (videoRef (widget w)); [|cbn; auto].
    destruct (canvasRef (widget w)); [|cbn; auto].
    cbn. destruct (getContext2d p); cbn; [|auto].
    destruct (captureStream p); cbn; auto. }
  destruct Hsame as [Hr Hf].
  destruct (beginCapture p w) as [[[videoStream|]|e] w1]; cbn [snd] in *.
  - destruct (audioCall p NewAudioContext).
    + pose proof (recordCaught_sessions p
                    (combinedOr (buildAudioGraph p videoStream) videoStream) w1) as H.
      unfold exec, tryCatch, combinedOr in H.
      case_record; cbn [snd] in *; now apply (sessionStep_after_same w w1).
    + pose proof (recordCaught_sessions p videoStream w1) as H.
      unfold exec, tryCatch in H.
      case_record; cbn [snd] in *; now apply (sessionStep_after_same w w1).
  - exact Hb.
  - apply (sessionStep_after_same w w1); try assumption.
    unfold sessionStep. cbn. auto.
Qed.

Lemma oneSession_browser (w w' : World) :
  recording (browser w') = recording (browser w) ->
  stopping (browser w') = stopping (browser w) ->
  awaiting (browser w') = awaiting (browser w) ->
  recordingFlag w' = recordingFlag w ->
  oneSession w -> oneSession w'.
Proof. unfold oneSession. now intros -> -> -> ->. Qed.

Lemma handle_oneSession (e : Event) (w : World) :
  startsRunThrough [e] = true -> oneSession w -> oneSession (handle e w).
Proof.
  intros He Hinv. pose proof Hinv as [Hwait [Hlen Hidle]].
  destruct e; cbn [handle].
  - now apply (oneSession_browser w).
  - now apply (oneSession_browser w).
  - destruct (videoRef (widget w)); [|assumption]. now apply (oneSession_browser w).
  - destruct (videoRef (widget w)); [|assumption]. now apply (oneSession_browser w).
  - cbn in He. rewrite andb_true_r in He. apply negb_true_iff in He.
    unfold clickStart. destruct (startDisabled (widget w)) eqn:Hdis; [assumption |].
    pose proof (clickStart_runs_through p w He) as Hstep.
    unfold clickStart in Hstep. rewrite Hdis in Hstep.
    unfold startDisabled in Hdis. apply orb_false_iff in Hdis as [_ Hflag].
    destruct (Hidle Hflag) as [Hrec Hstop].
    match goal with |- oneSession ?x => set (w' := x) in * end.
    destruct Hstep as [Hs [Ha [[Hr Hf] | [[id Hr] Hf]]]]; unfold oneSession;
      rewrite Hs, Ha, Hr, Hf, Hrec, Hstop; cbn; repeat split; auto; discriminate.
  - now rewrite Hwait, nth_error_nil.
  - unfold clickStop, stopRecording, recorder_stop.
    destruct (stopDisabled (widget w)) eqn:Hdis; [assumption |].
    destruct (recorderRef (widget w)) as [r|]; [|assumption].
    destruct (isRecording _) eqn:Hflag; [|assumption].
    destruct (existsb _ _) eqn:Hin; [|assumption].
    apply existsb_eqb_In in Hin.
    destruct (recording (browser w)) as [|id [|id' rest]] eqn:Hrec; cbn in Hlen, Hin.
    + contradiction.
    + destruct Hin as [<- | []].
      destruct (stopping (browser w)) eqn:Hstop; [|cbn in Hlen; lia].
      unfold oneSession, recordingFlag. cbn. rewrite Hwait, Hrec, Hstop, Hflag. cbn.
      destruct (Nat.eq_dec id id); [|congruence].
      repeat split; auto; discriminate.
    + lia.
  - destruct (existsb _ _); [|assumption].
    unfold ondataavailable. destruct (_ <? _)%nat; [|assumption].
    now apply (oneSession_browser w).
  - destruct (existsb _ _) eqn:Hin; [|assumption].
    apply existsb_eqb_In in Hin.
    match goal with |- oneSession (onstop ?x) => set (stopped := x) end.
    assert (Hbrowser : recording (browser (onstop stopped)) = recording (browser stopped) /\
                       stopping (browser (onstop stopped)) = stopping (browser stopped) /\
                       awaiting (browser (onstop stopped)) = awaiting (browser stopped)).
    { unfold onstop. destruct (drawIntervalRef (widget stopped)); cbn;
        destruct (recordedVideoRef (widget w)); cbn; auto. }
    destruct Hbrowser as [Hr [Hs Ha]].
    destruct (onstop_flags stopped) as [Hf _].
    unfold oneSession. rewrite Hr, Hs, Ha, Hf. subst stopped. cbn.
    destruct (recording (browser w)) as [|r rest] eqn:Hrec.
    + destruct (stopping (browser w)) as [|s [|s' rest]] eqn:Hstop; cbn in Hlen, Hin.
      * contradiction.
      * destruct Hin as [<- | []]. cbn. destruct (Nat.eq_dec s s); [|congruence].
        cbn. auto.
      * lia.
    + destruct (stopping (browser w)); [contradiction |].
      cbn in Hlen. rewrite length_app in Hlen. cbn in Hlen. lia.
  - unfold clickDownload, downloadRecording.
    destruct (downloadDisabled (widget w)); [assumption |].
    destruct (recordedBlob _); [|assumption].
    now apply (oneSession_browser w).
Qed.

(** From the initial state, along any trace whose start attempts all
    complete within their turn, at most one session is active. *)
Lemma serial_starts_one_session (es : list Event) :
  startsRunThrough es = true ->
  activeSessions (run es initialWorld) <= 1.
Proof.
  intros Hes.
  assert (Hinv : forall w, oneSession w -> oneSession (run es w)).
  { induction es as [|e es IH]; intros w Hw; [exact Hw |].
    cbn in Hes. apply andb_prop in Hes as [He Hes].
    cbn [run fold_left]. apply (IH Hes). unfold turn.
    apply (oneSession_browser (handle e w)); try reflexivity.
    apply handle_oneSession; [|assumption].
    cbn. now rewrite He. }
  destruct (Hinv initialWorld) as [_ [Hlen _]].
  - unfold oneSession. cbn. repeat split; auto.
  - unfold activeSessions. rewrite length_app in Hlen. lia.
Qed.

(** * Further properties of the component *)

(** ** The selected encoding *)

(** X1.  The option handed to the recorder constructor is always one of
    the four candidates; it is a supported one as soon as any candidate
    is supported, and an unsupported one is handed over only as the MP4
    fallback when none of the four is supported. *)
Theorem selected_option_is_listed (supported : string -> bool) :
  In (selectOptions supported) priorityOrder /\
  (forall option, In option priorityOrder -> supported option = true ->
     supported (selectOptions supported) = true) /\
  (supported (selectOptions supported) = false ->
     selectOptions supported = "video/mp4"%string /\
     forall option, In option priorityOrder -> supported option = false).
Proof.
  rewrite selectOptions_firstSupported. unfold firstSupported.
  destruct (find supported priorityOrder) as [chosen|] eqn:Hfind.
  - apply find_some in Hfind as [Hin Hsup].
    split; [exact Hin |]. split; [intros; exact Hsup |].
    intros H. congruence.
  - split; [cbn; tauto |].
    split.
    + intros option Hin Hsup.
      pose proof (find_none _ _ Hfind option Hin). congruence.
    + intros _. split; [reflexivity |].
      intros option Hin. exact (find_none _ _ Hfind option Hin).
Qed.

(** ** How a start attempt ends *)

Lemma startRecording_start_fails (p : Platform) (w : World) video canvas track mime e :
  videoRef (widget w) = Some video -> canvasRef (widget w) = Some canvas ->
  getContext2d p = true -> captureStream p = Ok track ->
  newMediaRecorder p
    (combinedOr (audioOutcome p (canvasStream track)) (canvasStream track))
    (selectOptions (isTypeSupported p)) = Ok mime ->
  recorderStart p = Some e ->
  startRecording p w =
  setRecordingState (set_error (Some (errorMessage e)))
    (constructed (combinedOr (audioOutcome p (canvasStream track)) (canvasStream track))
       mime (captureStarted video w)).
Proof.
  intros Hv Hc Hctx Hcap Hnew Hstart.
  rewrite (startRecording_records p w video canvas track Hv Hc Hctx Hcap).
  unfold exec, tryCatch. now rewrite record_cases, Hnew, Hstart.
Qed.

Lemma startRecording_opens (p : Platform) (w : World) video canvas track mime :
  videoRef (widget w) = Some video -> canvasRef (widget w) = Some canvas ->
  getContext2d p = true -> captureStream p = Ok track ->
  newMediaRecorder p
    (combinedOr (audioOutcome p (canvasStream track)) (canvasStream track))
    (selectOptions (isTypeSupported p)) = Ok mime ->
  recorderStart p = None ->
  startRecording p w =
  sessionOpened (combinedOr (audioOutcome p (canvasStream track)) (canvasStream track))
    mime (captureStarted video w).
Proof.
  intros Hv Hc Hctx Hcap Hnew Hstart.
  rewrite (startRecording_records p w video canvas track Hv Hc Hctx Hcap).
  unfold exec, tryCatch. now rewrite record_cases, Hnew, Hstart.
Qed.

(** X2.  Without a 2d context the attempt stops at line 39: the message
    "Canvas context not available" becomes the error and nothing else
    of the state moves, so no timer is started, the drawing surface is
    not resized and the fragment list is kept; a click on the enabled
    Start button gives just that state. *)
Theorem missing_context_changes_only_error (p : Platform) (w : World) video canvas :
  videoRef (widget w) = Some video -> canvasRef (widget w) = Some canvas ->
  getContext2d p = false ->
  let failed :=
    setRecordingState (set_error (Some "Canvas context not available"%string)) w in
  startRecording p w = failed /\
  (startDisabled (widget w) = false -> clickStart p w = failed) /\
  browser (startRecording p w) = browser w /\
  canvasRef (widget (startRecording p w)) = Some canvas /\
  drawIntervalRef (widget (startRecording p w)) = drawIntervalRef (widget w) /\
  recordedChunksRef (widget (startRecording p w)) = recordedChunksRef (widget w).
Proof.
  intros Hv Hc Hctx. cbv zeta.
  rewrite (startRecording_no_context p w video canvas Hv Hc Hctx).
  split; [reflexivity |]. split.
  - intros Hen. unfold clickStart. rewrite Hen.
    unfold startRecording_begin, tryCatch, bind.
    now rewrite (beginCapture_no_context p w video canvas Hv Hc Hctx).
  - cbn. now rewrite Hc.
Qed.

Lemma missing_context_changes_only_error_witness :
  errorOf (startRecording noContextBrowser loadedWorld) =
    Some "Canvas context not available"%string /\
  timers (browser (startRecording noContextBrowser loadedWorld)) = [].
Proof.
  destruct (missing_context_changes_only_error noContextBrowser loadedWorld
              {| videoWidth := 640; videoHeight := 360 |}
              {| width := 300; height := 150 |} eq_refl eq_refl eq_refl)
    as [-> [_ [Hb _]]].
  split; [reflexivity | now rewrite Hb].
Defined.

(** The state after a start attempt that threw once the timer was set:
    the error over a state that agrees with [captureStarted] on flag,
    result, surface and timers. *)
Lemma start_failure_shape (p : Platform) (w : World) video canvas e :
  videoRef (widget w) = Some video -> canvasRef (widget w) = Some canvas ->
  getContext2d p = true -> throwsAfterTimer p e ->
  exists inner,
    startRecording p w = setRecordingState (set_error (Some (errorMessage e))) inner /\
    recordingState (widget inner) = recordingState (widget (captureStarted video w)) /\
    canvasRef (widget inner) = canvasRef (widget (captureStarted video w)) /\
    drawIntervalRef (widget inner) = drawIntervalRef (widget (captureStarted video w)) /\
    timers (browser inner) = timers (browser (captureStarted video w)) /\
    recording (browser inner) = recording (browser (captureStarted video w)).
Proof.
  intros Hv Hc Hctx Hthrows.
  destruct Hthrows as [Hcap | [track [Hcap [Hnew | [mime [Hnew Hstart]]]]]].
  - eexists. split;
      [apply (startRecording_capture_fails p w video canvas e Hv Hc Hctx Hcap) |].
    repeat split.
  - eexists. split;
      [apply (startRecording_constructor_fails p w video canvas track e
                Hv Hc Hctx Hcap Hnew) |].
    repeat split.
  - eexists. split;
      [apply (startRecording_start_fails p w video canvas track mime e
                Hv Hc Hctx Hcap Hnew Hstart) |].
    repeat split.
Qed.

(** X3.  A start attempt that throws once the frame timer is set, from
    [captureStream], from the recorder constructor or from [start],
    reports the exception's message ("Recording failed" for a thrown
    value that is no Error), opens no session and keeps the previous
    result, but leaves the drawing surface resized and the new timer
    running and held in [drawIntervalRef]. *)
Theorem failed_start_after_timer (p : Platform) (w : World) video canvas e :
  videoRef (widget w) = Some video -> canvasRef (widget w) = Some canvas ->
  getContext2d p = true -> throwsAfterTimer p e ->
  let w' := startRecording p w in
  errorOf w' = Some (errorMessage e) /\
  (e = NonError -> errorOf w' = Some "Recording failed"%string) /\
  recordingFlag w' = recordingFlag w /\
  recording (browser w') = recording (browser w) /\
  resultOf w' = resultOf w /\
  canvasRef (widget w') =
    Some {| width := videoWidth video; height := videoHeight video |} /\
  drawIntervalRef (widget w') = Some (nextTimer (browser w)) /\
  timers (browser w') = nextTimer (browser w) :: timers (browser w).
Proof.
  intros Hv Hc Hctx Hthrows. cbv zeta.
  destruct (start_failure_shape p w video canvas e Hv Hc Hctx Hthrows)
    as [inner [-> [Hs [Hcv [Hd [Ht Hr]]]]]].
  unfold errorOf, recordingFlag, resultOf. cbn.
  rewrite Hs, Hcv, Hd, Ht, Hr. cbn.
  repeat split. now intros ->.
Qed.

Lemma failed_start_after_timer_witness :
  errorOf (startRecording noEncoderBrowser loadedWorld) = Some "NotSupportedError"%string /\
  timers (browser (startRecording noEncoderBrowser loadedWorld)) = [1].
Proof.
  destruct (failed_start_after_timer noEncoderBrowser loadedWorld
              {| videoWidth := 640; videoHeight := 360 |}
              {| width := 300; height := 150 |}
              (ErrorObject "NotSupportedError") eq_refl eq_refl eq_refl)
    as [He [_ [_ [_ [_ [_ [_ Ht]]]]]]].
  - right. exists 7. split; [reflexivity |]. left. reflexivity.
  - split; [exact He | exact Ht].
Defined.

(** ** The stream that is recorded *)

Lemma buildAudioGraph_stream (p : Platform) (videoStream s : MediaStream) :
  buildAudioGraph p videoStream = Ok s ->
  s = getVideoTracks videoStream ++ getAudioTracks (destinationStream p).
Proof.
  unfold buildAudioGraph.
  repeat match goal with
         | |- context [audioCall ?q ?c] => destruct (audioCall q c); cbn [andThen]
         end; try discriminate.
  now intros [= <-].
Qed.

Lemma audioOutcome_stream (p : Platform) (videoStream s : MediaStream) :
  audioOutcome p videoStream = Ok s ->
  s = getVideoTracks videoStream ++ getAudioTracks (destinationStream p).
Proof.
  unfold audioOutcome.
  destruct (audioCall p NewAudioContext); cbn [andThen]; [|discriminate].
  destruct (audioSuspended p); [destruct (audioCall p ResumeAudioContext)|];
    cbn [andThen]; try discriminate; apply buildAudioGraph_stream.
Qed.

Lemma video_of_audio (s : MediaStream) : getVideoTracks (getAudioTracks s) = [].
Proof.
  unfold getVideoTracks, getAudioTracks.
  induction s as [|[[|] id] s IH]; cbn; [reflexivity | assumption | assumption].
Qed.

Lemma audio_of_audio (s : MediaStream) : getAudioTracks (getAudioTracks s) = getAudioTracks s.
Proof.
  unfold getAudioTracks.
  induction s as [|[[|] id] s IH]; cbn; [reflexivity | assumption | now rewrite IH].
Qed.

Lemma recordedStream_tracks (p : Platform) (track : nat) :
  getVideoTracks (recordedStream p track) = canvasStream track /\
  getAudioTracks (recordedStream p track) =
    match audioOutcome p (canvasStream track) with
    | Ok _ => getAudioTracks (destinationStream p)
    | Throw _ => []
    end.
Proof.
  unfold recordedStream, combinedOr.
  destruct (audioOutcome p (canvasStream track)) as [s|e] eqn:Hout; [|now split].
  apply audioOutcome_stream in Hout. subst s.
  assert (Hv : forall a b, getVideoTracks (a ++ b) = getVideoTracks a ++ getVideoTracks b)
    by (intros; apply filter_app).
  assert (Ha : forall a b, getAudioTracks (a ++ b) = getAudioTracks a ++ getAudioTracks b)
    by (intros; apply filter_app).
  rewrite Hv, Ha, video_of_audio, audio_of_audio. now split.
Qed.

(** X4.  A start attempt whose recorder is built and started opens the
    session: isRecording is set, no error is stored, the fragment list
    is empty, the drawing surface has the video's native size, the new
    timer runs, and the recorder in [recorderRef] records exactly the
    canvas video track together with the audio tracks (and no video
    track) of the audio destination, or the canvas track alone when the
    audio block threw.  The previous result stays. *)
Theorem successful_start_opens_session
    (p : Platform) (w : World) video canvas track mime :
  videoRef (widget w) = Some video -> canvasRef (widget w) = Some canvas ->
  getContext2d p = true -> captureStream p = Ok track ->
  newMediaRecorder p (recordedStream p track) (selectOptions (isTypeSupported p)) = Ok mime ->
  recorderStart p = None ->
  let w' := startRecording p w in
  let recorder := {| recorderId := nextRecorder (browser w);
                     stream := recordedStream p track; mimeType := mime |} in
  recordingFlag w' = true /\ errorOf w' = None /\ resultOf w' = resultOf w /\
  recordedChunksRef (widget w') = [] /\
  canvasRef (widget w') =
    Some {| width := videoWidth video; height := videoHeight video |} /\
  drawIntervalRef (widget w') = Some (nextTimer (browser w)) /\
  timers (browser w') = nextTimer (browser w) :: timers (browser w) /\
  recorderRef (widget w') = Some recorder /\
  recording (browser w') = recorderId recorder :: recording (browser w) /\
  getVideoTracks (stream recorder) = [ {| kind := VideoTrack; trackId := track |} ] /\
  getAudioTracks (stream recorder) =
    match audioOutcome p (canvasStream track) with
    | Ok _ => getAudioTracks (destinationStream p)
    | Throw _ => []
    end.
Proof.
  intros Hv Hc Hctx Hcap Hnew Hstart. cbv zeta.
  rewrite (startRecording_opens p w video canvas track mime Hv Hc Hctx Hcap Hnew Hstart).
  destruct (recordedStream_tracks p track) as [Hvideo Haudio].
  cbn [stream]. rewrite Hvideo, Haudio.
  repeat split.
Qed.

Lemma successful_start_opens_session_witness :
  recordingFlag (startRecording webmBrowser loadedWorld) = true /\
  getAudioTracks (recordedStream webmBrowser 7) = [ {| kind := AudioTrack; trackId := 9 |} ].
Proof.
  destruct (successful_start_opens_session webmBrowser loadedWorld
              {| videoWidth := 640; videoHeight := 360 |}
              {| width := 300; height := 150 |} 7 "video/webm"%string
              eq_refl eq_refl eq_refl eq_refl eq_refl eq_refl)
    as [Hf [_ [_ [_ [_ [_ [_ [_ [_ [_ Ha]]]]]]]]]].
  split; [exact Hf | exact Ha].
Defined.

(** ** From an open session to its result *)

Lemma empty_fragments_carry_nothing (fragments : list Blob) :
  concat (map blobData (filter nonEmptyb fragments)) = concat (map blobData fragments).
Proof.
  induction fragments as [|f fs IH]; [reflexivity |].
  cbn [filter]. destruct (nonEmptyb f) eqn:Hf; cbn [map concat].
  - now rewrite IH.
  - rewrite IH. unfold nonEmptyb, size in Hf. apply Nat.ltb_ge in Hf.
    destruct (blobData f); [reflexivity | cbn in Hf; lia].
Qed.

Lemma onstop_sessions (w : World) :
  recording (browser (onstop w)) = recording (browser w) /\
  stopping (browser (onstop w)) = stopping (browser w) /\
  isVideoLoaded (widget (onstop w)) = isVideoLoaded (widget w) /\
  videoUrl (widget (onstop w)) = videoUrl (widget w) /\
  saved (browser (onstop w)) = saved (browser w) /\
  nextTimer (browser (onstop w)) = nextTimer (browser w).
Proof.
  unfold onstop.
  destruct (drawIntervalRef (widget w)); cbn;
    destruct (recordedVideoRef (widget w)); cbn; repeat split.
Qed.

(** The two turns that end a session, as one state transformer. *)
Lemma stop_turns (w : World) (r : MediaRecorder) :
  recorderRef (widget w) = Some r ->
  recordingFlag w = true ->
  In (recorderId r) (recording (browser w)) ->
  exists x,
    run [ClickStop; Stopped (recorderId r)] w = commit (onstop x) /\
    widget x = widget (commit w) /\
    timers (browser x) = timers (browser w) /\
    recording (browser x) = List.remove Nat.eq_dec (recorderId r) (recording (browser w)) /\
    stopping (browser x) = List.remove Nat.eq_dec (recorderId r) (stopping (browser w)).
Proof.
  intros Hr Hflag Hin.
  cbn [run fold_left]. unfold turn. cbn [handle].
  rewrite (clickStop_open w r Hr Hflag Hin).
  match goal with
  | |- context [if ?c then ?a else ?b] => replace (if c then a else b) with a
  end.
  - eexists. split; [reflexivity |]. cbn.
    destruct (Nat.eq_dec (recorderId r) (recorderId r)); [|congruence].
    repeat split.
  - cbn. now rewrite Nat.eqb_refl.
Qed.

(** The state at the end of a session, in terms of the state it was
    open in. *)
Lemma session_result (w : World) (r : MediaRecorder) (fragments : list Blob) :
  recorderRef (widget w) = Some r ->
  recordingFlag w = true ->
  In (recorderId r) (recording (browser w)) ->
  let finished := run (sessionEvents (recorderId r) fragments) w in
  resultOf finished =
    Some (newBlob (recordedChunksRef (widget w) ++ filter nonEmptyb fragments)
                  (mimeTypeOrDefault (Some r))) /\
  recordingFlag finished = false /\
  errorOf finished = errorOf w /\
  isVideoLoaded (widget finished) = isVideoLoaded (widget w) /\
  drawIntervalRef (widget finished) = None /\
  timers (browser finished) =
    match drawIntervalRef (widget w) with
    | Some id => List.remove Nat.eq_dec id (timers (browser w))
    | None => timers (browser w)
    end /\
  recording (browser finished) =
    List.remove Nat.eq_dec (recorderId r) (recording (browser w)) /\
  stopping (browser finished) =
    List.remove Nat.eq_dec (recorderId r) (stopping (browser w)).
Proof.
  intros Hr Hflag Hin. cbv zeta. unfold sessionEvents. rewrite run_app.
  destruct (data_events (recorderId r) fragments w) as [Hc [Hs [Hrr [Hd Hb]]]].
  { apply in_or_app. now left. }
  set (delivered := run (map (DataAvailable (recorderId r)) fragments) w) in *.
  assert (Hloaded : isVideoLoaded (widget delivered) = isVideoLoaded (widget w)).
  { subst delivered. clear. revert w.
    induction fragments as [|f fs IH]; intros w; [reflexivity |].
    cbn [map run fold_left]. fold (run (map (DataAvailable (recorderId r)) fs)).
    rewrite IH. unfold turn, handle, ondataavailable.
    destruct (existsb _ _); [destruct (_ <? _)%nat|]; reflexivity. }
  destruct (stop_turns delivered r) as [x [-> [Hx [Ht [Hrec Hstop]]]]].
  { now rewrite Hrr. }
  { unfold recordingFlag. now rewrite Hs. }
  { now rewrite Hb. }
  pose proof (onstop_result x) as Hres.
  destruct (onstop_flags x) as [Hf [He [Hdr _]]].
  destruct (onstop_sessions x) as [Hor [Hos [Hol _]]].
  pose proof (onstop_timers x) as Hot.
  assert (Hwx : recordedChunksRef (widget x) = recordedChunksRef (widget delivered) /\
                recorderRef (widget x) = recorderRef (widget delivered) /\
                drawIntervalRef (widget x) = drawIntervalRef (widget delivered) /\
                recordingState (widget x) = recordingState (widget delivered) /\
                isVideoLoaded (widget x) = isVideoLoaded (widget delivered)).
  { rewrite Hx. repeat split. }
  destruct Hwx as [Hxc [Hxr [Hxd [Hxs Hxl]]]].
  rewrite Hxc, Hxr, Hc, Hrr, Hr in Hres.
  unfold recordingFlag, errorOf, resultOf in *. cbn.
  rewrite Hf, He, Hdr, Hres, Hor, Hos, Hot, Hrec, Hstop, Hxs, Hs, Hol, Hxl, Hloaded.
  rewrite Hxd, Hd, Ht, Hb.
  repeat split.
Qed.

(** X5.  An open session brought to its end, by the fragments the
    recorder delivers, a click on Stop and the recorder's stop event,
    leaves as result one blob whose bytes are the bytes already in the
    fragment list followed by the bytes of every delivered fragment, in
    delivery order, tagged with the recorder's type; isRecording is
    false again, the held timer is cancelled, the recorder is neither
    recording nor waiting to stop, the error is as before, and Download
    is enabled. *)
Theorem open_session_result (w : World) (r : MediaRecorder) (fragments : list Blob) :
  recorderRef (widget w) = Some r ->
  recordingFlag w = true ->
  In (recorderId r) (recording (browser w)) ->
  let finished := run (sessionEvents (recorderId r) fragments) w in
  exists blob,
    resultOf finished = Some blob /\
    blobData blob =
      concat (map blobData (recordedChunksRef (widget w))) ++
      concat (map blobData fragments) /\
    blobType blob = mimeTypeOrDefault (Some r) /\
    recordingFlag finished = false /\
    errorOf finished = errorOf w /\
    drawIntervalRef (widget finished) = None /\
    (forall id, drawIntervalRef (widget w) = Some id ->
       ~ In id (timers (browser finished))) /\
    ~ In (recorderId r) (recording (browser finished) ++ stopping (browser finished)) /\
    downloadDisabled (widget finished) = false /\
    startDisabled (widget finished) = negb (isVideoLoaded (widget w)).
Proof.
  intros Hr Hflag Hin. cbv zeta.
  destruct (session_result w r fragments Hr Hflag Hin)
    as [Hres [Hf [He [Hl [Hd [Ht [Hrec Hstop]]]]]]].
  eexists. split; [exact Hres |].
  split.
  { cbn [newBlob blobData]. rewrite map_app, concat_app.
    now rewrite empty_fragments_carry_nothing. }
  split; [reflexivity |]. split; [exact Hf |]. split; [exact He |]. split; [exact Hd |].
  split; [intros id Hid; rewrite Ht, Hid; apply remove_In |].
  split.
  { rewrite Hrec, Hstop. intros Hin'. apply in_app_or in Hin'.
    destruct Hin' as [H | H]; now apply remove_In in H. }
  unfold downloadDisabled, startDisabled, resultOf, recordingFlag in *.
  rewrite Hres, Hf, Hl. split; [reflexivity | apply orb_false_r].
Qed.

Lemma open_session_result_witness :
  exists blob,
    resultOf (run (sessionEvents 1 [sampleFragment; emptyFragment; sampleFragment])
                (startRecording webmBrowser loadedWorld)) = Some blob /\
    blobData blob = [Byte.x1a; Byte.x45; Byte.x1a; Byte.x45].
Proof.
  destruct (open_session_result (startRecording webmBrowser loadedWorld)
              {| recorderId := 1;
                 stream := recordedStream webmBrowser 7; mimeType := "video/webm" |}
              [sampleFragment; emptyFragment; sampleFragment]
              eq_refl eq_refl (or_introl eq_refl))
    as [blob [Hres [Hdata _]]].
  exists blob. split; [exact Hres | exact Hdata].
Defined.

(** ** Stop, between the click and the recorder's answer *)

Lemma remove_twice (id : nat) (l : list nat) :
  List.remove Nat.eq_dec id (List.remove Nat.eq_dec id l) = List.remove Nat.eq_dec id l.
Proof. apply notin_remove. apply remove_In. Qed.

(** X6.  A click on Stop during a session only tells the recorder to
    stop: the component state is untouched, so isRecording stays true,
    the frame timer keeps running, Start stays without effect and no
    result exists yet, until the recorder's stop event arrives; the
    recorder has left the recording state, and a second click on Stop
    changes nothing. *)
Theorem stop_click_waits_for_recorder (w : World) (r : MediaRecorder) :
  recorderRef (widget w) = Some r ->
  recordingFlag w = true ->
  In (recorderId r) (recording (browser w)) ->
  let w' := clickStop w in
  widget w' = widget w /\
  timers (browser w') = timers (browser w) /\
  ~ In (recorderId r) (recording (browser w')) /\
  In (recorderId r) (stopping (browser w')) /\
  (forall p, clickStart p w' = w') /\
  clickStop w' = w' /\
  stopRecording w' = w'.
Proof.
  intros Hr Hflag Hin. cbv zeta.
  rewrite (clickStop_open w r Hr Hflag Hin).
  split; [reflexivity |]. split; [reflexivity |].
  split; [cbn; apply remove_In |].
  split; [cbn; now left |].
  split.
  - intros p. apply clickStart_disabled. right. exact Hflag.
  - assert (Hagain : stopRecording
                       (onBrowser (fun b => set_stopping (recorderId r :: stopping b)
                          (set_recording (List.remove Nat.eq_dec (recorderId r) (recording b)) b))
                          w) = 
                     onBrowser (fun b => set_stopping (recorderId r :: stopping b)
                          (set_recording (List.remove Nat.eq_dec (recorderId r) (recording b)) b))
                          w).
    { unfold stopRecording, recorder_stop. cbn. rewrite Hr.
      unfold recordingFlag in Hflag. rewrite Hflag.
      destruct (existsb _ _) eqn:Hex; [|reflexivity].
      apply existsb_eqb_In in Hex. now apply remove_In in Hex. }
    split; [|exact Hagain].
    unfold clickStop, stopDisabled. cbn.
    unfold recordingFlag in Hflag. rewrite Hflag. exact Hagain.
Qed.

Lemma stop_click_waits_for_recorder_witness :
  recordingFlag (clickStop (startRecording webmBrowser loadedWorld)) = true /\
  stopping (browser (clickStop (startRecording webmBrowser loadedWorld))) = [1].
Proof.
  destruct (stop_click_waits_for_recorder (startRecording webmBrowser loadedWorld)
              {| recorderId := 1;
                 stream := recordedStream webmBrowser 7; mimeType := "video/webm" |}
              eq_refl eq_refl (or_introl eq_refl)) as [Hw _].
  split; [unfold recordingFlag; now rewrite Hw | reflexivity].
Defined.

(** ** The source element reports an error *)

(** X7.  The load-error handler stores the message "Failed to load
    video. Please check the URL." in place of any earlier error and
    takes the loaded flag down: Start is without effect from then on,
    whatever happens, until the element signals loaded data.  A session
    in progress is not touched: flag, recorder, fragments, result and
    the browser side stay, so Stop works as before. *)
Theorem video_error_disables_start (w : World) (es : list Event) :
  forallb notLoadSignal es = true ->
  let w' := handleVideoError w in
  errorOf w' = Some "Failed to load video. Please check the URL."%string /\
  isVideoLoaded (widget w') = false /\
  (forall p, clickStart p (run es w') = run es w') /\
  recordingFlag w' = recordingFlag w /\
  recorderRef (widget w') = recorderRef (widget w) /\
  recordedChunksRef (widget w') = recordedChunksRef (widget w) /\
  resultOf w' = resultOf w /\
  browser w' = browser w /\
  clickStop w' = handleVideoError (clickStop w).
Proof.
  intros Hes. cbv zeta.
  split; [reflexivity |]. split; [reflexivity |].
  split.
  { intros p. apply clickStart_disabled. left.
    now apply run_keeps_unloaded. }
  repeat split.
  unfold clickStop, stopDisabled, stopRecording, recorder_stop. cbn.
  destruct (isRecording (recordingState (widget w))); cbn; [|reflexivity].
  destruct (recorderRef (widget w)); [|reflexivity].
  now destruct (existsb _ _).
Qed.

Lemma video_error_disables_start_witness :
  clickStart webmBrowser
    (run [ChangeUrl otherUrl; ClickLoadVideo] (handleVideoError loadedWorld)) =
  run [ChangeUrl otherUrl; ClickLoadVideo] (handleVideoError loadedWorld).
Proof.
  destruct (video_error_disables_start loadedWorld [ChangeUrl otherUrl; ClickLoadVideo]
              eq_refl) as [_ [_ [H _]]].
  exact (H webmBrowser).
Defined.

(** ** Unmount *)

Lemma cleanup_fields (w : World) :
  widget (cleanup w) = widget w /\
  timers (browser (cleanup w)) =
    match drawIntervalRef (widget w) with
    | Some id => List.remove Nat.eq_dec id (timers (browser w))
    | None => timers (browser w)
    end /\
  recording (browser (cleanup w)) =
    match recorderRef (widget w) with
    | Some r => List.remove Nat.eq_dec (recorderId r) (recording (browser w))
    | None => recording (browser w)
    end /\
  stopping (browser (cleanup w)) =
    match recorderRef (widget w) with
    | Some r => if existsb (Nat.eqb (recorderId r)) (recording (browser w))
                then recorderId r :: stopping (browser w)
                else stopping (browser w)
    | None => stopping (browser w)
    end.
Proof.
  unfold cleanup, recorder_stop, clearInterval.
  destruct (drawIntervalRef (widget w)) as [t|]; cbn;
    destruct (recorderRef (widget w)) as [r|]; cbn; try (repeat split; fail);
    destruct (existsb (Nat.eqb (recorderId r)) (recording (browser w))) eqn:Hex; cbn;
    repeat split;
    symmetry; apply notin_remove; intros Hin; apply existsb_eqb_In in Hin; congruence.
Qed.

Lemma existsb_removed (id : nat) (l : list nat) :
  existsb (Nat.eqb id) (List.remove Nat.eq_dec id l) = false.
Proof.
  apply not_true_is_false. intros Hin.
  apply existsb_eqb_In in Hin. now apply remove_In in Hin.
Qed.

Lemma cleanup_twice (w : World) : cleanup (cleanup w) = cleanup w.
Proof.
  destruct w as [c b]. destruct b as [ts nt nr rec stp aw sv].
  destruct c as [rs vu vl vr pr cr [r|] [t|] ch];
    unfold cleanup, recorder_stop, clearInterval; cbn;
    try (destruct (existsb (Nat.eqb (recorderId r)) rec) eqn:Hex); cbn;
    rewrite ?Hex, ?existsb_removed; cbn;
    unfold onBrowser, set_timers, set_stopping, set_recording; cbn;
    rewrite ?remove_twice; reflexivity.
Qed.

(** X8.  The unmount cleanup cancels the timer held in
    [drawIntervalRef] and stops the recorder in [recorderRef] if it is
    recording (its stop event is then pending); it writes no component
    state, not even the timer ref.  It reaches nothing else: every
    other running timer and every other recording recorder goes on.
    Running it twice is the same as running it once. *)
Theorem unmount_cleanup (w : World) :
  widget (cleanup w) = widget w /\
  (forall id, drawIntervalRef (widget w) = Some id ->
     ~ In id (timers (browser (cleanup w)))) /\
  (forall id, In id (timers (browser w)) -> drawIntervalRef (widget w) <> Some id ->
     In id (timers (browser (cleanup w)))) /\
  (forall r, recorderRef (widget w) = Some r ->
     ~ In (recorderId r) (recording (browser (cleanup w))) /\
     (In (recorderId r) (recording (browser w)) ->
      In (recorderId r) (stopping (browser (cleanup w))))) /\
  (forall id, In id (recording (browser w)) ->
     (forall r, recorderRef (widget w) = Some r -> recorderId r <> id) ->
     In id (recording (browser (cleanup w)))) /\
  cleanup (cleanup w) = cleanup w.
Proof.
  destruct (cleanup_fields w) as [Hw [Ht [Hr Hs]]].
  split; [exact Hw |]. rewrite Ht, Hr, Hs.
  split; [intros id ->; apply remove_In |].
  split.
  { intros id Hin Hne. destruct (drawIntervalRef (widget w)) as [t|]; [|exact Hin].
    apply in_in_remove; [congruence | exact Hin]. }
  split.
  { intros r ->. split; [apply remove_In |].
    intros Hin. apply existsb_eqb_In in Hin. rewrite Hin. now left. }
  split; [|apply cleanup_twice].
  intros id Hin Hother. destruct (recorderRef (widget w)) as [r|]; [|exact Hin].
  apply in_in_remove; [|exact Hin].
  intros Heq. apply (Hother r eq_refl). now symmetry.
Qed.

(** ** The result is written in one place *)

(** X9.  The result blob changes only when a recorder reports stop: no
    other event, be it a new start, its resumption, delivered fragments,
    a click on Stop or Download, a load signal or an edited URL,
    replaces or clears it, so the previous recording stays downloadable
    throughout the next session. *)
Theorem result_changes_only_on_stop (e : Event) (w : World) :
  notStopEvent e = true ->
  resultOf (turn w e) = resultOf w /\
  downloadDisabled (widget (turn w e)) = downloadDisabled (widget w).
Proof.
  intros He. pose proof (handle_keeps_result e w He) as H.
  unfold turn, downloadDisabled, resultOf in *. cbn. now rewrite H.
Qed.

Lemma result_changes_only_on_stop_witness :
  resultOf (turn firstSessionDone (ClickStart webmBrowser)) = Some firstResult.
Proof.
  destruct (result_changes_only_on_stop (ClickStart webmBrowser) firstSessionDone eq_refl)
    as [-> _].
  reflexivity.
Defined.

(** ** Frames of the start routine, by cases on the browser's answers *)

(** A relation that holds across [beginCapture] and is carried on by
    the outer catch and by [record] holds across the turn that begins a
    start attempt; the carrying relation holds across the resumption. *)
Lemma start_frame_principle (P Q : World -> World -> Prop) :
  (forall w, Q w w) ->
  (forall a b c, P a b -> Q b c -> P a c) ->
  (forall a b c, Q a b -> Q b c -> Q a c) ->
  (forall p w, P w (snd (beginCapture p w))) ->
  (forall e w, Q w (snd (catchStart e w))) ->
  (forall p s w, Q w (snd (record p s w))) ->
  forall p w,
    P w (snd (startRecording_begin p w)) /\
    forall s, Q w (exec (startRecording_resume p s) w).
Proof.
  intros Qrefl PQ QQ Hbegin Hcatch Hrecord p w.
  assert (Hcaught : forall s w0, Q w0 (exec (tryCatch (record p s) catchStart) w0)).
  { intros s w0. unfold exec, tryCatch. pose proof (Hrecord p s w0) as Hr.
    destruct (record p s w0) as [[[]|e] w1]; cbn [snd] in *; [exact Hr |].
    eapply QQ; [exact Hr | apply Hcatch]. }
  split.
  - unfold startRecording_begin, continueStart, tryCatch, bind, ret.
    pose proof (Hbegin p w) as Hb.
    destruct (beginCapture p w) as [[[videoStream|]|e] w1]; cbn [snd] in *.
    + destruct (audioCall p NewAudioContext); [destruct (audioSuspended p)|].
      * exact Hb.
      * pose proof (Hcaught (combinedOr (buildAudioGraph p videoStream) videoStream) w1)
          as Hr.
        unfold exec, tryCatch, combinedOr in Hr.
        case_record; cbn [snd] in *; eapply PQ; eauto.
      * pose proof (Hcaught videoStream w1) as Hr. unfold exec, tryCatch in Hr.
        case_record; cbn [snd] in *; eapply PQ; eauto.
    + exact Hb.
    + eapply PQ; [exact Hb | apply Hcatch].
  - intros s. unfold startRecording_resume, continueStart.
    destruct (audioCall p ResumeAudioContext); apply Hcaught.
Qed.

Lemma beginCapture_cases (p : Platform) (w : World) :
  snd (beginCapture p w) = w \/
  snd (beginCapture p w) = setRecordingState (set_error None) w \/
  exists video, videoRef (widget w) = Some video /\
                snd (beginCapture p w) = captureStarted video w.
Proof.
  destruct (videoRef (widget w)) as [video|] eqn:Hv;
    [destruct (canvasRef (widget w)) as [canvas|] eqn:Hc|].
  - destruct (getContext2d p) eqn:Hctx.
    + right. right. exists video. split; [reflexivity |].
      now rewrite (beginCapture_stream p w video canvas Hv Hc Hctx).
    + right. left. now rewrite (beginCapture_no_context p w video canvas Hv Hc Hctx).
  - left. rewrite beginCapture_returns; auto.
  - left. rewrite beginCapture_returns; auto.
Qed.

Lemma record_world_cases (p : Platform) (s : MediaStream) (w : World) :
  snd (record p s w) = onWidget (set_recordedChunksRef []) w \/
  (exists mime, snd (record p s w) = constructed s mime w) \/
  (exists mime, snd (record p s w) = sessionOpened s mime w).
Proof.
  rewrite record_cases.
  destruct (newMediaRecorder p s _) as [mime|e]; [destruct (recorderStart p)|]; cbn [snd];
    eauto.
Qed.

Lemma refsKept_refl (w : World) : refsKept w w.
Proof. unfold refsKept. auto. Qed.

Lemma refsKept_trans (a b c : World) : refsKept a b -> refsKept b c -> refsKept a c.
Proof.
  unfold refsKept. intros [H1 [H2 [H3 [H4 H5]]]] [K1 [K2 [K3 [K4 K5]]]].
  rewrite K1, K2, K3, K4, K5. auto.
Qed.

Lemma start_keeps_refs (p : Platform) (w : World) :
  refsKept w (snd (startRecording_begin p w)) /\
  forall s, refsKept w (exec (startRecording_resume p s) w).
Proof.
  apply (start_frame_principle refsKept refsKept).
  - apply refsKept_refl.
  - apply refsKept_trans.
  - apply refsKept_trans.
  - intros q w0. destruct (beginCapture_cases q w0) as [-> | [-> | [video [_ ->]]]];
      unfold refsKept; repeat split.
  - intros e w0. unfold refsKept. repeat split.
  - intros q s w0.
    destruct (record_world_cases q s w0) as [-> | [[mime ->] | [mime ->]]];
      unfold refsKept; repeat split.
Qed.

(** ** The refs follow the rendered tree *)

Lemma clickStart_keeps_refs (p : Platform) (w : World) :
  refsKept w (clickStart p w).
Proof.
  unfold clickStart. destruct (startDisabled (widget w)); [apply refsKept_refl |].
  destruct (start_keeps_refs p w) as [H _].
  destruct (startRecording_begin p w) as [[[|videoStream]|e] w1]; cbn [snd] in *;
    exact H.
Qed.

Lemma handle_keeps_playback (e : Event) (w : World) :
  notStopEvent e = true ->
  recordedVideoRef (widget (handle e w)) = recordedVideoRef (widget w) /\
  ((forall now, e <> ClickDownload now) -> saved (browser (handle e w)) = saved (browser w)).
Proof.
  intros He.
  destruct e; cbn [handle]; try discriminate He.
  - split; reflexivity.
  - split; reflexivity.
  - destruct (videoRef (widget w)); split; reflexivity.
  - destruct (videoRef (widget w)); split; reflexivity.
  - destruct (clickStart_keeps_refs p w) as [_ [H [_ [_ Hs]]]]. now split.
  - destruct (nth_error (awaiting (browser w)) n) as [s|]; [|now split].
    destruct (start_keeps_refs p
                (onBrowser (fun b => set_awaiting (removeNth n (awaiting b)) b) w))
      as [_ H].
    destruct (H s) as [_ [Hp [_ [_ Hs]]]]. now split.
  - unfold clickStop, stopRecording, recorder_stop.
    destruct (stopDisabled (widget w)); [now split |].
    destruct (recorderRef (widget w)); [|now split].
    destruct (isRecording _); [|now split].
    destruct (existsb _ _); now split.
  - destruct (existsb _ _); [|now split].
    unfold ondataavailable. destruct (_ <? _)%nat; now split.
  - split.
    + unfold clickDownload, downloadRecording.
      destruct (downloadDisabled (widget w)); [reflexivity |].
      now destruct (recordedBlob _).
    + intros H. now contradiction (H now).
Qed.

Lemma commit_renders (w : World) :
  (videoRef (widget (commit w)) = None <-> videoUrl (widget (commit w)) = EmptyString) /\
  (recordedVideoRef (widget (commit w)) = None <-> resultOf (commit w) = None) /\
  (forall element, recordedVideoRef (widget (commit w)) = Some element ->
     src element = None \/
     (resultOf w <> None /\ recordedVideoRef (widget w) = Some element)).
Proof.
  unfold commit, resultOf. cbn.
  split; [|split].
  - destruct (videoUrl (widget w)); [tauto |].
    destruct (videoRef (widget w)); split; discriminate.
  - destruct (recordedBlob (recordingState (widget w))); [|tauto].
    destruct (recordedVideoRef (widget w)); split; discriminate.
  - intros element.
    destruct (recordedBlob (recordingState (widget w))); [|discriminate].
    destruct (recordedVideoRef (widget w)) as [old|].
    + intros [= <-]. right. split; [discriminate | reflexivity].
    + intros [= <-]. now left.
Qed.

Lemma turn_rendered (e : Event) (w : World) : rendered w -> rendered (turn w e).
Proof.
  intros [_ [_ Hsrc]]. unfold turn.
  destruct (commit_renders (handle e w)) as [Hv [Hp Hnew]].
  split; [exact Hv |]. split; [exact Hp |].
  intros element Hel. destruct (Hnew element Hel) as [Hnone | [_ Hold]]; [now left |].
  change (resultOf (commit (handle e w))) with (resultOf (handle e w)).
  destruct (notStopEvent e) eqn:He.
  - destruct (handle_keeps_playback e w He) as [Href _].
    rewrite (handle_keeps_result e w He). apply Hsrc. now rewrite <- Href.
  - destruct e; try discriminate He. cbn [handle] in *.
    destruct (existsb _ _); [|now apply Hsrc].
    rewrite onstop_playback in Hold. rewrite onstop_result.
    match type of Hold with
    | match ?x with _ => _ end = _ => destruct x; [|discriminate]
    end.
    injection Hold as <-. now right.
Qed.

Lemma run_rendered (es : list Event) : rendered (run es initialWorld).
Proof.
  apply (run_invariant rendered).
  - intros e w. apply turn_rendered.
  - unfold rendered, resultOf. cbn. repeat split; intros; try discriminate; reflexivity.
Qed.

(** X10.  After every turn the refs agree with the rendered tree: the
    source element is mounted exactly while the URL field is non-empty,
    the playback element exactly while a result exists, and the playback
    element plays either nothing or the current result, never an older
    one. *)
Theorem refs_follow_render (es : list Event) :
  let w := run es initialWorld in
  (videoRef (widget w) = None <-> videoUrl (widget w) = EmptyString) /\
  (recordedVideoRef (widget w) = None <-> resultOf w = None) /\
  (forall element, recordedVideoRef (widget w) = Some element ->
     src element = None \/ src element = resultOf w).
Proof. exact (run_rendered es). Qed.

(** X14.  Which results reach the playback element.  The stop event
    that produces the first result of the widget's life finds no
    playback element, so the element mounted afterwards has no source;
    every stop event that arrives while a result already exists binds
    the new result to the playback element. *)
Theorem playback_binding (es : list Event) (id : nat) :
  In id (stopping (browser (run es initialWorld))) ->
  let w := run es initialWorld in
  let w' := turn w (Stopped id) in
  exists blob,
    resultOf w' = Some blob /\
    (resultOf w = None -> recordedVideoRef (widget w') = Some {| src := None |}) /\
    (resultOf w <> None -> exposedForPlayback w' blob).
Proof.
  intros Hin. cbv zeta.
  destruct (run_rendered es) as [_ [Hmounted _]].
  set (w := run es initialWorld) in *.
  apply existsb_eqb_In in Hin.
  unfold turn. cbn [handle]. rewrite Hin.
  match goal with |- context [onstop ?x] => set (stopped := x) end.
  pose proof (onstop_result stopped) as Hres.
  pose proof (onstop_playback stopped) as Hplay.
  change (recordedVideoRef (widget stopped)) with (recordedVideoRef (widget w)) in Hplay.
  eexists. split.
  { change (resultOf (commit (onstop stopped))) with (resultOf (onstop stopped)).
    exact Hres. }
  unfold exposedForPlayback, commit, resultOf in *. cbn.
  rewrite Hres, Hplay. split.
  - intros Hnone. apply Hmounted in Hnone. now rewrite Hnone.
  - intros Hsome.
    destruct (recordedVideoRef (widget w)) as [element|] eqn:Hel.
    + eexists. split; reflexivity.
    + exfalso. apply Hsome. now apply Hmounted.
Qed.

Lemma playback_binding_witness :
  exists blob,
    resultOf (turn (run ([ChangeUrl sampleUrl; LoadedData 640 360; ClickStart webmBrowser] ++
                         sessionEvents 1 [sampleFragment] ++
                         [ClickStart webmBrowser; ClickStop]) initialWorld) (Stopped 2))
      = Some blob /\
    exposedForPlayback
      (turn (run ([ChangeUrl sampleUrl; LoadedData 640 360; ClickStart webmBrowser] ++
                  sessionEvents 1 [sampleFragment] ++
                  [ClickStart webmBrowser; ClickStop]) initialWorld) (Stopped 2)) blob.
Proof.
  destruct (playback_binding
              ([ChangeUrl sampleUrl; LoadedData 640 360; ClickStart webmBrowser] ++
               sessionEvents 1 [sampleFragment] ++
               [ClickStart webmBrowser; ClickStop]) 2 (or_introl eq_refl))
    as [blob [Hres [_ Hbound]]].
  exists blob. split; [exact Hres |].
  apply Hbound. vm_compute. discriminate.
Defined.

(** ** The files that were saved *)

(** Only a Download click saves a file, one per click, carrying the
    result held at that moment. *)
Lemma handle_saved (e : Event) (w : World) :
  saved (browser (handle e w)) =
  saved (browser w) ++
  match e with
  | ClickDownload now =>
      match resultOf w with
      | Some blob => [ {| href := blob; download := fileNameFor blob now |} ]
      | None => []
      end
  | _ => []
  end.
Proof.
  destruct (notStopEvent e) eqn:He.
  - destruct e; try discriminate He;
      try (destruct (handle_keeps_playback _ w He) as [_ Hs];
           rewrite Hs; [symmetry; apply app_nil_r | intros; discriminate]).
    cbn [handle].
    unfold clickDownload, downloadDisabled, downloadRecording, resultOf, fileNameFor.
    destruct (recordedBlob (recordingState (widget w))) as [blob|] eqn:Hb; cbn.
    + reflexivity.
    + now rewrite app_nil_r.
  - destruct e; try discriminate He. cbn [handle]. rewrite app_nil_r.
    destruct (existsb _ _); [|reflexivity].
    match goal with
    | |- context [onstop ?x] => destruct (onstop_sessions x) as [_ [_ [_ [_ [Hs _]]]]]
    end.
    now rewrite Hs.
Qed.

(** Every saved file goes back to a Download click of the trace and
    carries the result held when the click came. *)
Lemma saved_origin (es : list Event) :
  Forall (fun a =>
            exists pre now post,
              es = pre ++ ClickDownload now :: post /\
              resultOf (run pre initialWorld) = Some (href a) /\
              download a = fileNameFor (href a) now)
         (saved (browser (run es initialWorld))).
Proof.
  induction es as [|e es IH] using rev_ind; [constructor |].
  rewrite run_snoc. unfold turn. rewrite commit_browser, handle_saved.
  apply Forall_app. split.
  - eapply Forall_impl; [|exact IH]. cbn beta.
    intros a [pre [now [post [Hes [Hr Hn]]]]].
    exists pre, now, (post ++ [e]).
    split; [rewrite Hes; now rewrite <- app_assoc | now split].
  - destruct e; cbn; try constructor.
    destruct (resultOf (run es initialWorld)) as [blob|] eqn:Hb; constructor; [|constructor].
    exists es, now, []. cbn. now repeat split.
Qed.

(** X11.  Every file the download action has handed to the browser, in
    whatever order the events came, was saved by a Download click of
    the trace and carries the result held at that click; that result is
    the blob the stop handler made at an earlier stop event of the trace
    from the fragment list held then, all of whose fragments are
    non-empty; and the file is named after the moment of the click and
    the blob's own type: recorded-video-<millis>.mp4 when the type
    contains "mp4", recorded-video-<millis>.webm otherwise. *)
Theorem saved_files_are_well_formed (es : list Event) :
  Forall (fun a =>
            exists before id between now after,
              let w := run before initialWorld in
              let fragments := recordedChunksRef (widget w) in
              es = before ++ Stopped id :: between ++ ClickDownload now :: after /\
              existsb (Nat.eqb id) (stopping (browser w)) = true /\
              resultOf (run (before ++ Stopped id :: between) initialWorld) = Some (href a) /\
              href a = newBlob fragments (mimeTypeOrDefault (recorderRef (widget w))) /\
              Forall (fun fragment => 0 < size fragment) fragments /\
              download a =
              ("recorded-video-" ++ numberToString now ++ "." ++
               (if includes (blobType (href a)) "mp4" then "mp4" else "webm"))%string)
         (saved (browser (run es initialWorld))).
Proof.
  eapply Forall_impl; [|apply saved_origin]. cbn beta.
  intros a [pre [now [post [Hes [Hr Hn]]]]].
  destruct (result_origin pre (href a) Hr) as [before [id [between [Hpre [Hid Hblob]]]]].
  exists before, id, between, now, post. cbv zeta.
  split; [rewrite Hes, Hpre; now rewrite <- app_assoc |].
  split; [exact Hid |].
  split; [now rewrite <- Hpre |].
  split; [exact Hblob |].
  split; [apply fragments_reachable | exact Hn].
Qed.

(** ** Timers *)

Lemma start_timers (p : Platform) (w : World) :
  timerStep w (snd (startRecording_begin p w)) /\
  forall s,
    timers (browser (exec (startRecording_resume p s) w)) = timers (browser w) /\
    nextTimer (browser (exec (startRecording_resume p s) w)) = nextTimer (browser w) /\
    drawIntervalRef (widget (exec (startRecording_resume p s) w)) = drawIntervalRef (widget w).
Proof.
  apply (start_frame_principle timerStep
           (fun a b => timers (browser b) = timers (browser a) /\
                       nextTimer (browser b) = nextTimer (browser a) /\
                       drawIntervalRef (widget b) = drawIntervalRef (widget a))).
  - auto.
  - unfold timerStep. intros a b c Hab [H1 [H2 H3]]. rewrite H1, H2, H3. exact Hab.
  - intros a b c [H1 [H2 H3]] [K1 [K2 K3]]. rewrite K1, K2, K3. auto.
  - intros q w0. unfold timerStep.
    destruct (beginCapture_cases q w0) as [-> | [-> | [video [_ ->]]]];
      [left | left | right]; repeat split.
  - intros e w0. repeat split.
  - intros q s w0.
    destruct (record_world_cases q s w0) as [-> | [[mime ->] | [mime ->]]]; repeat split.
Qed.

Lemma NoDup_removed (id : nat) (l : list nat) :
  NoDup l -> NoDup (List.remove Nat.eq_dec id l).
Proof.
  induction 1 as [|x l Hx Hl IH]; cbn; [constructor |].
  destruct (Nat.eq_dec id x); [exact IH |].
  constructor; [|exact IH].
  intros Hin. apply in_remove in Hin. tauto.
Qed.

Lemma removed_one (id : nat) (l : list nat) :
  NoDup l -> In id l -> length (List.remove Nat.eq_dec id l) + 1 = length l.
Proof.
  induction 1 as [|x l Hx Hl IH]; cbn; [contradiction |].
  intros [-> | Hin].
  - destruct (Nat.eq_dec id id); [|congruence].
    rewrite notin_remove by assumption. lia.
  - destruct (Nat.eq_dec id x) as [->|]; [contradiction |].
    cbn. rewrite <- (IH Hin). lia.
Qed.

Lemma timersInvariant_same (w w' : World) :
  timers (browser w') = timers (browser w) ->
  nextTimer (browser w') = nextTimer (browser w) ->
  drawIntervalRef (widget w') = drawIntervalRef (widget w) ->
  timersInvariant w -> timersInvariant w'.
Proof. unfold timersInvariant. now intros -> -> ->. Qed.

Lemma timersInvariant_step (w w' : World) :
  timerStep w w' -> timersInvariant w -> timersInvariant w'.
Proof.
  intros [[Ht [Hn Hd]] | [Ht [Hn Hd]]] Hinv.
  - now apply (timersInvariant_same w).
  - destruct Hinv as [Hnodup [Hlt _]]. unfold timersInvariant. rewrite Ht, Hn, Hd.
    split; [|split].
    + constructor; [|exact Hnodup]. intros Hin. apply Hlt in Hin. lia.
    + intros id [<- | Hin]; [lia |]. apply Hlt in Hin. lia.
    + intros id [= <-]. now left.
Qed.

Lemma handle_timers (e : Event) (w : World) :
  timersInvariant w -> timersInvariant (handle e w).
Proof.
  intros Hinv. destruct e; cbn [handle].
  - now apply (timersInvariant_same w).
  - now apply (timersInvariant_same w).
  - destruct (videoRef (widget w)); [|assumption]. now apply (timersInvariant_same w).
  - destruct (videoRef (widget w)); [|assumption]. now apply (timersInvariant_same w).
  - unfold clickStart. destruct (startDisabled (widget w)); [assumption |].
    destruct (start_timers p w) as [Hstep _].
    apply (timersInvariant_step w); [|assumption].
    destruct (startRecording_begin p w) as [[[|videoStream]|e] w1]; cbn [snd] in *;
      exact Hstep.
  - destruct (nth_error (awaiting (browser w)) n) as [s|]; [|assumption].
    destruct (start_timers p
                (onBrowser (fun b => set_awaiting (removeNth n (awaiting b)) b) w))
      as [_ H].
    destruct (H s) as [Ht [Hn Hd]].
    now apply (timersInvariant_same w).
  - unfold clickStop, stopRecording, recorder_stop.
    destruct (stopDisabled (widget w)); [assumption |].
    destruct (recorderRef (widget w)); [|assumption].
    destruct (isRecording _); [|assumption].
    destruct (existsb _ _); [|assumption].
    now apply (timersInvariant_same w).
  - destruct (existsb _ _); [|assumption].
    unfold ondataavailable. destruct (_ <? _)%nat; [|assumption].
    now apply (timersInvariant_same w).
  - destruct (existsb _ _); [|assumption].
    match goal with |- timersInvariant (onstop ?x) => set (stopped := x) end.
    destruct Hinv as [Hnodup [Hlt Hheld]].
    destruct (onstop_flags stopped) as [_ [_ [Hd _]]].
    destruct (onstop_sessions stopped) as [_ [_ [_ [_ [_ Hn]]]]].
    unfold timersInvariant. rewrite onstop_timers, Hd, Hn.
    change (timers (browser stopped)) with (timers (browser w)).
    change (nextTimer (browser stopped)) with (nextTimer (browser w)).
    change (drawIntervalRef (widget stopped)) with (drawIntervalRef (widget w)).
    split; [|split].
    + destruct (drawIntervalRef (widget w)); [now apply NoDup_removed | exact Hnodup].
    + intros t Hin. apply Hlt.
      destruct (drawIntervalRef (widget w)); [now apply in_remove in Hin | exact Hin].
    + discriminate.
  - unfold clickDownload, downloadRecording.
    destruct (downloadDisabled (widget w)); [assumption |].
    destruct (recordedBlob _); [|assumption].
    now apply (timersInvariant_same w).
Qed.

(** X12.  Along every trace the running timers carry distinct ids and
    the timer held in [drawIntervalRef] is one of them; hence a stop
    handler that finds a timer held cancels exactly one running timer,
    and no timer other than the held one is ever cancelled by it. *)
Theorem held_timer_is_running (es : list Event) :
  let w := run es initialWorld in
  NoDup (timers (browser w)) /\
  forall id, drawIntervalRef (widget w) = Some id ->
    In id (timers (browser w)) /\
    length (timers (browser (onstop w))) + 1 = length (timers (browser w)) /\
    forall other, other <> id -> In other (timers (browser w)) ->
      In other (timers (browser (onstop w))).
Proof.
  cbv zeta.
  assert (Hinv : timersInvariant (run es initialWorld)).
  { apply run_invariant.
    - intros e w Hw. unfold turn.
      apply (timersInvariant_same (handle e w)); try reflexivity.
      now apply handle_timers.
    - unfold timersInvariant. cbn.
      split; [constructor | split; [contradiction | discriminate]]. }
  destruct Hinv as [Hnodup [_ Hheld]].
  split; [exact Hnodup |].
  intros id Hid. pose proof (Hheld id Hid) as Hin.
  split; [exact Hin |]. rewrite onstop_timers, Hid.
  split; [now apply removed_one |].
  intros other Hne Hother. now apply in_in_remove.
Qed.

(** ** Stop reaches the session *)

Lemma stop_click_opens_stopping (w : World) (r : MediaRecorder) :
  recorderRef (widget w) = Some r ->
  recordingFlag w = true ->
  In (recorderId r) (recording (browser w)) ->
  In (recorderId r) (stopping (browser (clickStop w))) /\
  widget (clickStop w) = widget w.
Proof.
  intros Hr Hflag Hin. rewrite (clickStop_open w r Hr Hflag Hin).
  split; [cbn; now left | reflexivity].
Qed.



Lemma recordCaught_opens (p : Platform) (s : MediaStream) (w : World) :
  let w' := exec (tryCatch (record p s) catchStart) w in
  recordingFlag w' = recordingFlag w \/
  (recordingFlag w' = true /\
   exists r, recorderRef (widget w') = Some r /\
             recording (browser w') = recorderId r :: recording (browser w) /\
             stopping (browser w') = stopping (browser w)).
Proof.
  cbv zeta. unfold exec, tryCatch. rewrite record_cases.
  destruct (newMediaRecorder p s _) as [mime|e]; [destruct (recorderStart p)|]; cbn.
  - now left.
  - right. split; [reflexivity |]. eexists. repeat split.
  - now left.
Qed.

Lemma clickStart_opens (p : Platform) (w : World) :
  audioSuspended p = false ->
  let w' := clickStart p w in
  recordingFlag w' = recordingFlag w \/
  (recordingFlag w' = true /\
   exists r, recorderRef (widget w') = Some r /\
             recording (browser w') = recorderId r :: recording (browser w) /\
             stopping (browser w') = stopping (browser w)).
Proof.
  intros Hrun. cbv zeta. unfold clickStart.
  destruct (startDisabled (widget w)); [now left |].
  unfold startRecording_begin, continueStart, tryCatch, bind, ret. rewrite Hrun.
  assert (Hsame : recordingFlag (snd (beginCapture p w)) = recordingFlag w /\
                  recording (browser (snd (beginCapture p w))) = recording (browser w) /\
                  stopping (browser (snd (beginCapture p w))) = stopping (browser w)).
  { destruct (beginCapture_cases p w) as [-> | [-> | [video [_ ->]]]]; repeat split. }
  destruct Hsame as [Hf [Hr Hs]].
  destruct (beginCapture p w) as [[[videoStream|]|e] w1]; cbn [snd] in *.
  - destruct (audioCall p NewAudioContext).
    + pose proof (recordCaught_opens p
                    (combinedOr (buildAudioGraph p videoStream) videoStream) w1) as H.
      cbv zeta in H. unfold exec, tryCatch, combinedOr in H.
      rewrite Hf, Hr, Hs in H. now case_record.
    + pose proof (recordCaught_opens p videoStream w1) as H.
      cbv zeta in H. unfold exec, tryCatch in H.
      rewrite Hf, Hr, Hs in H. now case_record.
  - now left.
  - left. exact Hf.
Qed.

Lemma stopReaches_same (w w' : World) :
  recording (browser w') = recording (browser w) ->
  stopping (browser w') = stopping (browser w) ->
  awaiting (browser w') = awaiting (browser w) ->
  recordingFlag w' = recordingFlag w ->
  recorderRef (widget w') = recorderRef (widget w) ->
  stopReaches w -> stopReaches w'.
Proof. unfold stopReaches, oneSession. now intros -> -> -> -> ->. Qed.

Lemma handle_stopReaches (e : Event) (w : World) :
  startsRunThrough [e] = true -> stopReaches w -> stopReaches (handle e w).
Proof.
  intros He Hinv. pose proof Hinv as [Hone Hreach].
  split; [now apply handle_oneSession |].
  destruct Hone as [Hwait [Hlen Hidle]].
  destruct e; cbn [handle].
  - exact Hreach.
  - exact Hreach.
  - destruct (videoRef (widget w)); exact Hreach.
  - destruct (videoRef (widget w)); exact Hreach.
  - cbn in He. rewrite andb_true_r in He. apply negb_true_iff in He.
    destruct (startDisabled (widget w)) eqn:Hdis.
    { unfold clickStart. rewrite Hdis. exact Hreach. }
    unfold startDisabled in Hdis. apply orb_false_iff in Hdis as [_ Hflag].
    destruct (Hidle Hflag) as [Hrec Hstop].
    destruct (clickStart_opens p w He) as [Hsame | [_ [r [Hr [Hrecording Hstopping]]]]].
    + intros Hup. unfold recordingFlag in *. congruence.
    + intros _. exists r. split; [exact Hr |].
      now rewrite Hrecording, Hstopping, Hrec, Hstop.
  - now rewrite Hwait, nth_error_nil.
  - unfold clickStop, stopRecording, recorder_stop.
    destruct (stopDisabled (widget w)); [exact Hreach |].
    destruct (recorderRef (widget w)) as [r|] eqn:Hr in |- *; [|exact Hreach].
    destruct (isRecording (recordingState (widget w))) eqn:Hflag in |- *; [|exact Hreach].
    destruct (existsb _ _) eqn:Hin; [|exact Hreach].
    apply existsb_eqb_In in Hin.
    destruct (Hreach Hflag) as [r' [Hr' Hlist]]. rewrite Hr in Hr'. injection Hr' as <-.
    intros _. exists r. split; [cbn; exact Hr |]. cbn.
    destruct (recording (browser w)) as [|id [|id' rest]]; cbn in Hin, Hlist.
    + contradiction.
    + destruct (stopping (browser w)); [|discriminate Hlist].
      injection Hlist as ->. cbn.
      destruct (Nat.eq_dec (recorderId r) (recorderId r)); [reflexivity | congruence].
    + discriminate Hlist.
  - destruct (existsb _ _); [|exact Hreach].
    unfold ondataavailable. destruct (_ <? _)%nat; exact Hreach.
  - destruct (existsb _ _); [|exact Hreach].
    match goal with |- context [onstop ?x] => destruct (onstop_flags x) as [Hf _] end.
    intros Hup. congruence.
  - unfold clickDownload, downloadRecording.
    destruct (downloadDisabled (widget w)); [exact Hreach |].
    destruct (recordedBlob _); exact Hreach.
Qed.

(** X13.  Along every trace in which no start attempt has to wait for
    its audio context, at most one session is active, and whenever
    isRecording is true the recorder in [recorderRef] is that session's
    recorder, recording or already asked to stop: a click on Stop
    followed by that recorder's stop event always ends the session,
    leaving isRecording false and a result in place. *)
Theorem stop_reaches_the_session (es : list Event) :
  startsRunThrough es = true ->
  let w := run es initialWorld in
  activeSessions w <= 1 /\
  (recordingFlag w = true ->
   exists r,
     recorderRef (widget w) = Some r /\
     recording (browser w) ++ stopping (browser w) = [recorderId r] /\
     In (recorderId r) (stopping (browser (clickStop w))) /\
     recordingFlag (run [ClickStop; Stopped (recorderId r)] w) = false /\
     resultOf (run [ClickStop; Stopped (recorderId r)] w) <> None).
Proof.
  intros Hes. cbv zeta.
  assert (Hinv : forall w, stopReaches w -> stopReaches (run es w)).
  { induction es as [|e es IH]; intros w Hw; [exact Hw |].
    cbn in Hes. apply andb_prop in Hes as [He Hes].
    cbn [run fold_left]. apply (IH Hes). unfold turn.
    apply (stopReaches_same (handle e w)); try reflexivity.
    apply handle_stopReaches; [|assumption].
    cbn. now rewrite He. }
  destruct (Hinv initialWorld) as [[_ [Hlen _]] Hreach].
  { split; [|discriminate]. unfold oneSession. cbn. repeat split; auto. }
  set (w := run es initialWorld) in *.
  split; [unfold activeSessions; rewrite length_app in Hlen; lia |].
  intros Hflag. destruct (Hreach Hflag) as [r [Hr Hlist]].
  exists r. split; [exact Hr |]. split; [exact Hlist |].
  destruct (recording (browser w)) as [|id rest] eqn:Hrec.
  - cbn in Hlist.
    assert (Hstay : clickStop w = w).
    { unfold clickStop, stopDisabled, stopRecording, recorder_stop.
      unfold recordingFlag in Hflag. rewrite Hflag, Hr, Hrec. reflexivity. }
    rewrite Hstay. split; [rewrite Hlist; now left |].
    assert (Hrun : exists x, run [ClickStop; Stopped (recorderId r)] w = commit (onstop x)).
    { cbn [run fold_left]. unfold turn. cbn [handle]. rewrite Hstay.
      match goal with
      | |- context [if ?c then ?a else ?b] => replace (if c then a else b) with a
      end.
      - eexists. reflexivity.
      - cbn. rewrite Hlist. cbn. now rewrite Nat.eqb_refl. }
    destruct Hrun as [x ->].
    pose proof (onstop_result x) as Hres. destruct (onstop_flags x) as [Hf _].
    change (recordingFlag (commit (onstop x))) with (recordingFlag (onstop x)).
    change (resultOf (commit (onstop x))) with (resultOf (onstop x)).
    split; [exact Hf |]. rewrite Hres. discriminate.
  - assert (Hin : In (recorderId r) (recording (browser w))).
    { rewrite Hrec. cbn in Hlist. injection Hlist as -> _. now left. }
    destruct (stop_click_opens_stopping w r Hr Hflag Hin) as [Hstop _].
    split; [exact Hstop |].
    destruct (stop_events w r Hr Hflag Hin) as [Hres [_ [Hf _]]].
    split; [exact Hf | now rewrite Hres].
Qed.

Lemma stop_reaches_the_session_witness :
  activeSessions
    (run [ChangeUrl sampleUrl; LoadedData 640 360; ClickStart webmBrowser;
          ClickStart webmBrowser] initialWorld) <= 1.
Proof.
  exact (proj1 (stop_reaches_the_session
                  [ChangeUrl sampleUrl; LoadedData 640 360; ClickStart webmBrowser;
                   ClickStart webmBrowser] eq_refl)).
Defined.

(** ** The error banner *)

(** X15.  The error banner shows the stored message exactly when that
    message is a non-empty string.  A start attempt that fails with an
    Error whose message is empty stores the empty message: no banner
    appears and the widget looks idle, although the attempt failed after
    its timer was set. *)
Theorem empty_message_shows_no_banner (p : Platform) (w : World) video canvas :
  videoRef (widget w) = Some video -> canvasRef (widget w) = Some canvas ->
  getContext2d p = true -> throwsAfterTimer p (ErrorObject EmptyString) ->
  let w' := startRecording p w in
  (forall c message,
     errorBanner c = Some message <->
     error (recordingState c) = Some message /\ message <> EmptyString) /\
  errorOf w' = Some EmptyString /\
  errorBanner (widget w') = None /\
  recordingFlag w' = recordingFlag w /\
  In (nextTimer (browser w)) (timers (browser w')).
Proof.
  intros Hv Hc Hctx Hthrows. cbv zeta.
  split.
  { intros c message. unfold errorBanner.
    destruct (error (recordingState c)) as [[|a rest]|]; split.
    - discriminate.
    - intros [[= <-] H]. now contradiction H.
    - intros [= <-]. split; [reflexivity | discriminate].
    - now intros [[= <-] _].
    - discriminate.
    - intros [H _]. discriminate H. }
  destruct (start_failure_shape p w video canvas _ Hv Hc Hctx Hthrows)
    as [inner [-> [Hs [_ [_ [Ht _]]]]]].
  unfold errorOf, errorBanner, recordingFlag. cbn. rewrite Hs, Ht. cbn.
  repeat split. now left.
Qed.

Lemma empty_message_shows_no_banner_witness :
  errorBanner (widget (startRecording muteFailureBrowser loadedWorld)) = None /\
  timers (browser (startRecording muteFailureBrowser loadedWorld)) = [1].
Proof.
  assert (Hthrows : throwsAfterTimer muteFailureBrowser (ErrorObject EmptyString)).
  { right. exists 7. split; [reflexivity |]. left. reflexivity. }
  destruct (empty_message_shows_no_banner muteFailureBrowser loadedWorld
              {| videoWidth := 640; videoHeight := 360 |}
              {| width := 300; height := 150 |} eq_refl eq_refl eq_refl Hthrows)
    as [_ [_ [Hb _]]].
  split; [exact Hb | reflexivity].
Defined.

(** ** A start attempt that waits and is resumed at once *)

Lemma start_keeps_awaiting (p : Platform) (w : World) :
  awaiting (browser (snd (startRecording_begin p w))) = awaiting (browser w) /\
  forall s, awaiting (browser (exec (startRecording_resume p s) w)) = awaiting (browser w).
Proof.
  apply (start_frame_principle
           (fun a b => awaiting (browser b) = awaiting (browser a))
           (fun a b => awaiting (browser b) = awaiting (browser a))).
  - auto.
  - intros a b c H1 H2. congruence.
  - intros a b c H1 H2. congruence.
  - intros q w0. destruct (beginCapture_cases q w0) as [-> | [-> | [video [_ ->]]]];
      reflexivity.
  - reflexivity.
  - intros q s w0.
    destruct (record_world_cases q s w0) as [-> | [[mime ->] | [mime ->]]]; reflexivity.
Qed.

Lemma commit_commit (w : World) : commit (commit w) = commit w.
Proof.
  destruct w as [[rs vu vl vr pr cr rr dr ch] b]. unfold commit, onWidget. cbn.
  destruct vu; destruct (recordedBlob rs); destruct vr; destruct pr; reflexivity.
Qed.

(** A committed state stays committed under changes that leave the two
    video refs, the URL and the result alone. *)
Lemma commit_stable (w w' : World) :
  refsKept w w' -> commit w = w -> commit w' = w'.
Proof.
  destruct w as [[rs vu vl vr pr cr rr dr ch] b].
  destruct w' as [[rs' vu' vl' vr' pr' cr' rr' dr' ch'] b'].
  unfold refsKept, resultOf, commit, onWidget. cbn.
  intros [-> [-> [-> [Hres _]]]] Hfix. rewrite Hres.
  injection Hfix as Hv Hp. now rewrite Hv, Hp.
Qed.

Lemma startRecording_begin_completes (p : Platform) (w : World) :
  audioSuspended p = false ->
  fst (startRecording_begin p w) = Ok Completed.
Proof.
  intros Hrun.
  unfold startRecording_begin, continueStart, tryCatch, bind, ret, catchStart, modify.
  rewrite Hrun.
  destruct (beginCapture p w) as [[[videoStream|]|e] w1]; try reflexivity.
  destruct (audioCall p NewAudioContext); now case_record.
Qed.

(** A click on the enabled Start button in a browser whose audio context
    runs at once is the whole attempt. *)
Lemma clickStart_whole (p : Platform) (w : World) :
  audioSuspended p = false -> startDisabled (widget w) = false ->
  clickStart p w = startRecording p w.
Proof.
  intros Hrun Hen. unfold clickStart, startRecording. rewrite Hen.
  pose proof (startRecording_begin_completes p w Hrun) as Hdone.
  destruct (startRecording_begin p w) as [r w1]. cbn in Hdone. now subst r.
Qed.

(** X16.  A start attempt that has to wait for its audio context and is
    resumed before any other event gives the state of an attempt that
    runs through: in a committed state with no attempt waiting, a click
    on the enabled Start button followed by the settling of resume()
    equals the uninterrupted attempt followed by the render. *)
Theorem resumed_at_once_is_uninterrupted (p : Platform) (w : World) :
  startDisabled (widget w) = false ->
  awaiting (browser w) = [] ->
  commit w = w ->
  run [ClickStart p; AudioResumed 0 p] w = commit (startRecording p w).
Proof.
  intros Hen Hwait Hfix.
  cbn [run fold_left]. unfold turn at 2. cbn [handle].
  unfold clickStart, startRecording. rewrite Hen.
  destruct (start_keeps_refs p w) as [Hrefs _].
  destruct (start_keeps_awaiting p w) as [Haw _].
  destruct (startRecording_begin p w) as [[[|videoStream]|e] w1]; cbn [snd] in *.
  - unfold turn. cbn [handle].
    change (awaiting (browser (commit w1))) with (awaiting (browser w1)).
    rewrite Haw, Hwait. cbn. apply commit_commit.
  - pose proof (commit_stable w w1 Hrefs Hfix) as Hfix1.
    unfold turn. cbn [handle].
    assert (Hpushed : commit (onBrowser (fun b => set_awaiting (awaiting b ++ [videoStream]) b) w1)
                      = onBrowser (fun b => set_awaiting (awaiting b ++ [videoStream]) b) w1).
    { apply (commit_stable w1); [|exact Hfix1]. unfold refsKept, resultOf. repeat split. }
    rewrite Hpushed.
    assert (Hstate :
              nth_error
                (awaiting (browser (onBrowser
                   (fun b => set_awaiting (awaiting b ++ [videoStream]) b) w1))) 0
              = Some videoStream /\
              onBrowser (fun b => set_awaiting (removeNth 0 (awaiting b)) b)
                (onBrowser (fun b => set_awaiting (awaiting b ++ [videoStream]) b) w1) = w1).
    { rewrite Hwait in Haw. clear - Haw.
      destruct w1 as [c1 [ts nt nr rec stp aw sv]]. cbn in Haw. subst aw.
      split; reflexivity. }
    destruct Hstate as [-> ->]. reflexivity.
  - unfold turn. cbn [handle].
    change (awaiting (browser (commit w1))) with (awaiting (browser w1)).
    rewrite Haw, Hwait. cbn. apply commit_commit.
Qed.

Lemma resumed_at_once_is_uninterrupted_witness :
  recordingFlag
    (run [ClickStart suspendedAudioBrowser; AudioResumed 0 suspendedAudioBrowser]
       loadedWorld) = true.
Proof.
  rewrite (resumed_at_once_is_uninterrupted suspendedAudioBrowser loadedWorld
             eq_refl eq_refl eq_refl).
  reflexivity.
Defined.

Lemma turn_keeps_canvas (e : Event) (w : World) :
  notStartEvent e = true -> canvasRef (widget (turn w e)) = canvasRef (widget w).
Proof.
  intros He. unfold turn.
  change (canvasRef (widget (commit (handle e w)))) with (canvasRef (widget (handle e w))).
  destruct e; cbn [handle]; try discriminate He; try reflexivity.
  - now destruct (videoRef (widget w)).
  - now destruct (videoRef (widget w)).
  - unfold clickStop, stopRecording, recorder_stop.
    destruct (stopDisabled (widget w)); [reflexivity |].
    destruct (recorderRef (widget w)); [|reflexivity].
    destruct (isRecording _); [|reflexivity].
    now destruct (existsb _ _).
  - destruct (existsb _ _); [|reflexivity].
    unfold ondataavailable. now destruct (_ <? _)%nat.
  - destruct (existsb _ _); [|reflexivity].
    unfold onstop. cbn. destruct (drawIntervalRef (widget w)); cbn;
      now destruct (recordedVideoRef (widget w)).
  - unfold clickDownload, downloadRecording.
    destruct (downloadDisabled (widget w)); [reflexivity |].
    now destruct (recordedBlob _).
Qed.

Lemma session_keeps_canvas (id : nat) (fragments : list Blob) (w : World) :
  canvasRef (widget (run (sessionEvents id fragments) w)) = canvasRef (widget w).
Proof.
  unfold sessionEvents. rewrite run_app.
  assert (Hdata : forall w0,
            canvasRef (widget (run (map (DataAvailable id) fragments) w0)) =
            canvasRef (widget w0)).
  { induction fragments as [|f fs IH]; intros w0; [reflexivity |].
    cbn [map run fold_left]. fold (run (map (DataAvailable id) fs)).
    rewrite IH. now apply turn_keeps_canvas. }
  cbn [run fold_left].
  rewrite !turn_keeps_canvas by reflexivity. apply Hdata.
Qed.


(** ** From an entered URL to a saved recording *)

(** X17.  The whole path through the widget, for any non-empty URL, any
    size of the loaded video, any fragments and any browser that gives
    a context and a canvas stream, has its audio context running at
    once and builds and starts the recorder: after URL entry, load
    signal, Start, the delivered fragments, Stop and the stop event the
    result holds exactly the delivered bytes in order under the
    recorder's type, no error is stored, isRecording is false, no timer
    runs and no recorder is active, the drawing surface has the video's
    size, and Start and Download are both enabled. *)
Theorem recording_round_trip
    (p : Platform) (a : ascii) (url : string) (vw vh track : nat) (mime : string)
    (fragments : list Blob) :
  getContext2d p = true -> captureStream p = Ok track ->
  audioSuspended p = false ->
  newMediaRecorder p (recordedStream p track) (selectOptions (isTypeSupported p)) = Ok mime ->
  recorderStart p = None ->
  let w := run ([ChangeUrl (String a url); LoadedData vw vh; ClickStart p] ++
                sessionEvents 1 fragments) initialWorld in
  exists blob,
    resultOf w = Some blob /\
    blobData blob = concat (map blobData fragments) /\
    blobType blob =
      mimeTypeOrDefault (Some {| recorderId := 1; stream := recordedStream p track;
                                 mimeType := mime |}) /\
    errorOf w = None /\
    recordingFlag w = false /\
    timers (browser w) = [] /\
    recording (browser w) = [] /\ stopping (browser w) = [] /\
    canvasRef (widget w) = Some {| width := vw; height := vh |} /\
    startDisabled (widget w) = false /\
    downloadDisabled (widget w) = false.
Proof.
  intros Hctx Hcap Hrun Hnew Hstart. cbv zeta. rewrite run_app.
  set (loaded := run [ChangeUrl (String a url); LoadedData vw vh] initialWorld).
  assert (Hstarted : run [ChangeUrl (String a url); LoadedData vw vh; ClickStart p] initialWorld
                     = commit (sessionOpened (recordedStream p track) mime
                                 (captureStarted {| videoWidth := vw; videoHeight := vh |}
                                    loaded))).
  { change (run [ChangeUrl (String a url); LoadedData vw vh; ClickStart p] initialWorld)
      with (commit (clickStart p loaded)).
    rewrite (clickStart_whole p loaded Hrun eq_refl).
    now rewrite (startRecording_opens p loaded
                   {| videoWidth := vw; videoHeight := vh |}
                   {| width := 300; height := 150 |} track mime
                   eq_refl eq_refl Hctx Hcap Hnew Hstart). }
  rewrite Hstarted.
  match goal with |- context [run _ ?x] => set (opened := x) end.
  destruct (session_result opened
              {| recorderId := 1; stream := recordedStream p track; mimeType := mime |}
              fragments eq_refl eq_refl (or_introl eq_refl))
    as [Hres [Hf [He [Hl [Hd [Ht [Hrec Hstop]]]]]]].
  cbn [recorderId] in *.
  eexists. split; [exact Hres |].
  split; [cbn; apply empty_fragments_carry_nothing |].
  split; [reflexivity |]. split; [rewrite He; reflexivity |]. split; [exact Hf |].
  split; [rewrite Ht; reflexivity |].
  split; [rewrite Hrec; reflexivity |]. split; [rewrite Hstop; reflexivity |].
  split; [now rewrite session_keeps_canvas |].
  unfold startDisabled, downloadDisabled, resultOf, recordingFlag in *.
  rewrite Hres, Hf, Hl. split; reflexivity.
Qed.

Lemma recording_round_trip_witness :
  exists blob,
    resultOf (run ([ChangeUrl sampleUrl; LoadedData 640 360; ClickStart webmBrowser] ++
                   sessionEvents 1 [sampleFragment; emptyFragment]) initialWorld)
      = Some blob /\
    blobData blob = [Byte.x1a; Byte.x45].
Proof.
  destruct (recording_round_trip webmBrowser "h"%char
              "ttps://example.com/sample.mp4"%string 640 360 7 "video/webm"%string
              [sampleFragment; emptyFragment] eq_refl eq_refl eq_refl eq_refl eq_refl)
    as [blob [Hres [Hdata _]]].
  exists blob. split; [exact Hres | exact Hdata].
Defined.

(** ** Where isRecording changes *)

Lemma startRecording_resume_flag (p : Platform) (s : MediaStream) (w : World) :
  recordingFlag w = true -> recordingFlag (exec (startRecording_resume p s) w) = true.
Proof.
  intros Hflag. unfold startRecording_resume, continueStart.
  destruct (audioCall p ResumeAudioContext);
    match goal with
    | |- context [tryCatch (record ?q ?t) catchStart] =>
        destruct (recordCaught_opens q t w) as [H | [H _]]
    end; congruence.
Qed.

(** X18.  isRecording goes up only in a turn of the start routine and
    comes down only when a recorder reports stop: once true it survives
    every other event, a failing resumed start attempt and a load error
    included, and while false no click on Stop or Download, no fragment,
    no load signal and no URL edit raises it. *)
Theorem recording_flag_transitions (e : Event) (w : World) :
  (notStopEvent e = true -> recordingFlag w = true -> recordingFlag (turn w e) = true) /\
  (notStartEvent e = true -> recordingFlag w = false -> recordingFlag (turn w e) = false).
Proof.
  change (recordingFlag (turn w e)) with (recordingFlag (handle e w)).
  split; intros He Hflag; destruct e; cbn [handle]; try discriminate He; try exact Hflag.
  - destruct (videoRef (widget w)); exact Hflag.
  - destruct (videoRef (widget w)); exact Hflag.
  - now rewrite clickStart_disabled by now right.
  - destruct (nth_error (awaiting (browser w)) n); [|exact Hflag].
    now apply startRecording_resume_flag.
  - unfold clickStop, stopRecording, recorder_stop.
    destruct (stopDisabled (widget w)); [exact Hflag |].
    destruct (recorderRef (widget w)); [|exact Hflag].
    destruct (isRecording _) eqn:H; [|exact Hflag].
    destruct (existsb _ _); exact Hflag.
  - destruct (existsb _ _); [|exact Hflag].
    unfold ondataavailable. destruct (_ <? _)%nat; exact Hflag.
  - unfold clickDownload, downloadRecording.
    destruct (downloadDisabled (widget w)); [exact Hflag |].
    destruct (recordedBlob _); exact Hflag.
  - destruct (videoRef (widget w)); exact Hflag.
  - destruct (videoRef (widget w)); exact Hflag.
  - unfold clickStop, stopDisabled. unfold recordingFlag in Hflag. now rewrite Hflag.
  - destruct (existsb _ _); [|exact Hflag].
    unfold ondataavailable. destruct (_ <? _)%nat; exact Hflag.
  - destruct (existsb _ _); [|exact Hflag].
    match goal with |- context [onstop ?x] => now destruct (onstop_flags x) end.
  - unfold clickDownload, downloadRecording.
    destruct (downloadDisabled (widget w)); [exact Hflag |].
    destruct (recordedBlob _); exact Hflag.
Qed.

(** ** Downloading more than once *)

(** X19.  Download can be used any number of times: every click saves
    the current result again under the name of its moment, in click
    order, and none of the clicks changes the component state; without
    a result the clicks save nothing. *)
Theorem repeated_downloads (w : World) (moments : list Z) :
  let w' := fold_left (fun s now => clickDownload now s) moments w in
  widget w' = widget w /\
  saved (browser w') =
    saved (browser w) ++
    match resultOf w with
    | Some blob =>
        map (fun now => {| href := blob; download := fileNameFor blob now |}) moments
    | None => []
    end.
Proof.
  cbv zeta. revert w. induction moments as [|now rest IH]; intros w.
  - cbn. destruct (resultOf w); now rewrite app_nil_r.
  - cbn [fold_left]. destruct (IH (clickDownload now w)) as [Hw Hs].
    rewrite Hw, Hs. clear IH Hw Hs.
    unfold clickDownload, downloadDisabled, downloadRecording, resultOf, fileNameFor.
    destruct (recordedBlob (recordingState (widget w))) as [blob|] eqn:Hb; cbn.
    + rewrite Hb. split; [reflexivity |]. now rewrite <- app_assoc.
    + rewrite Hb. now split.
Qed.
